(** * System Sentinel: the dashboard client (static/js/dashboard.js)

    A shallow embedding of the two React components of [dashboard.js],
    [SystemMonitor] and [SystemMonitorDashboard], together with the
    parts of the browser they talk to: [fetch], [Response.json],
    [setInterval] / [clearInterval] and the rendering of JSX children.

    - JavaScript values that come out of [JSON.parse] are the inductive
      [value]; an object is the list of its own properties in
      enumeration order, which is what [Object.entries] returns.
    - Numbers are exact rationals: a JSON number literal denotes one.
      The rounding of IEEE doubles is not modelled; [NaN] is the [None]
      of [to_number].
    - An [async] function is run to completion: every awaited promise
      is taken to settle, and the handler is not interleaved with other
      handlers.  The state in which [fetchData] waits for the network
      is available separately as [fetchData_pending].
    - Text that the engine, not the program, chooses (messages of the
      exceptions it raises, the decimal rendering of a number) is a
      field of the record [engine]. *)

From Stdlib Require Import ZArith QArith Bool List String Ascii Lia.
From Stdlib Require Import DecimalString.
Import ListNotations.

Local Open Scope string_scope.
Local Open Scope Z_scope.
Local Open Scope list_scope.

(** ** JavaScript values *)

#[local] Set Warnings "-register-all".

Inductive value : Type :=
| VUndefined
| VNull
| VBool (b : bool)
| VNum (q : Q)
| VStr (s : string)
| VArr (items : list value)
| VObj (entries : list (string * value)).

(** The TypeErrors the component can provoke. *)
Inductive type_error : Type :=
| ReadOfNullish (k : string)    (* reading property [k] of null or undefined *)
| NotAFunction (k : string)     (* calling [x.k] where it is not callable *)
| InvalidChild                  (* React: an object is not a valid child *)
| NotPrimitive.                 (* an object cannot be converted to a primitive *)

(** What the engine decides and the program only observes. *)
Record engine : Type := mkEngine {
  type_error_message : type_error -> string;
  (** Number::toString *)
  number_to_string : Q -> string;
  (** StringToNumber; [None] is NaN *)
  string_to_number : string -> option Q
}.

(** ToBoolean. *)
Definition truthy (v : value) : bool :=
  match v with
  | VUndefined | VNull => false
  | VBool b => b
  | VNum q => negb (Qeq_bool q 0%Q)
  | VStr s => negb (s =? "")%string
  | VArr _ | VObj _ => true
  end.

Fixpoint lookup (k : string) (l : list (string * value)) : option value :=
  match l with
  | [] => None
  | (k', v) :: rest => if (k' =? k)%string then Some v else lookup k rest
  end.

Definition index_name (i : nat) : string :=
  NilEmpty.string_of_uint (Nat.to_uint i).

(** The element whose index is written [k], searching from index [i]. *)
Fixpoint lookup_index {A : Type} (k : string) (i : nat) (l : list A) : option A :=
  match l with
  | [] => None
  | x :: rest => if (index_name i =? k)%string then Some x else lookup_index k (S i) rest
  end.

Definition num_of_nat (n : nat) : value := VNum (inject_Z (Z.of_nat n)).

Definition chars (s : string) : list string :=
  map (fun c => String c EmptyString) (list_ascii_of_string s).

(** ** Exceptions and the world *)

Record exn : Type := Error { message : string }.

Inductive outcome (A : Type) : Type :=
| Normal (a : A)
| Throw (e : exn).
Arguments Normal {A} a.
Arguments Throw {A} e.

(** The result of [response.json()]: the parsed body, or the message of
    the SyntaxError with which the promise rejects. *)
Inductive json_result : Type :=
| Parsed (v : value)
| Malformed (msg : string).

Record response : Type := mkResponse {
  ok : bool;
  status : Z;
  body : json_result
}.

(** A settled [fetch] promise. *)
Inductive fetch_outcome : Type :=
| Resolved (r : response)
| Rejected (msg : string).

(** The other end answers the [n]-th request of the page, made to [url]. *)
Definition remote : Type := nat -> string -> fetch_outcome.

(** The three [useState] cells of [SystemMonitor]. *)
Record state : Type := mkState {
  data : value;
  loading : bool;
  error : option string
}.

Definition initial_state : state := mkState VNull true None.

Inductive callback : Type := CbFetchData.

Record timer : Type := mkTimer {
  tid : nat;
  handler_of : callback;
  period : Z;
  due : Z
}.

Record world : Type := mkWorld {
  st : state;
  requests : list (Z * string);   (* time sent, url; oldest first *)
  clock : Z;                      (* milliseconds *)
  timers : list timer;
  next_timer : nat
}.

Definition with_state (f : state -> state) (w : world) : world :=
  mkWorld (f (st w)) (requests w) (clock w) (timers w) (next_timer w).

Definition M (A : Type) : Type := world -> outcome A * world.

Definition ret {A : Type} (a : A) : M A := fun w => (Normal a, w).

Definition bind {A B : Type} (c : M A) (k : A -> M B) : M B :=
  fun w => match c w with
           | (Normal a, w1) => k a w1
           | (Throw e, w1) => (Throw e, w1)
           end.

Definition throw {A : Type} (e : exn) : M A := fun w => (Throw e, w).

(** An expression evaluated inside a statement. *)
Definition lift {A : Type} (o : outcome A) : M A := fun w => (o, w).

Declare Scope js_scope.
Delimit Scope js_scope with js.
Notation "x <- c ;; k" := (bind c (fun x => k))
  (at level 100, c at next level, right associativity) : js_scope.
Notation "c ;; k" := (bind c (fun _ => k))
  (at level 100, right associativity) : js_scope.
Local Open Scope js_scope.

(** [try { body } catch (err) { handler err }] *)
Definition try_catch {A : Type} (body : M A) (handler : exn -> M A) : M A :=
  fun w => match body w with
           | (Normal a, w1) => (Normal a, w1)
           | (Throw e, w1) => handler e w1
           end.

(** [try { ... } finally { final }]: [final] runs on both exits and an
    exception of its own replaces the pending completion. *)
Definition finally {A : Type} (body : M A) (final : M unit) : M A :=
  fun w => match body w with
           | (r, w1) => match final w1 with
                        | (Normal _, w2) => (r, w2)
                        | (Throw e, w2) => (Throw e, w2)
                        end
           end.

Definition setData (v : value) : M unit :=
  fun w => (Normal tt, with_state (fun s => mkState v (loading s) (error s)) w).

Definition setLoading (b : bool) : M unit :=
  fun w => (Normal tt, with_state (fun s => mkState (data s) b (error s)) w).

Definition setError (e : option string) : M unit :=
  fun w => (Normal tt, with_state (fun s => mkState (data s) (loading s) e) w).

(** The request leaves the page: it is appended to the log. *)
Definition send (url : string) : M nat :=
  fun w => (Normal (List.length (requests w)),
            mkWorld (st w) (requests w ++ [(clock w, url)]) (clock w)
                    (timers w) (next_timer w)).

Definition json (r : response) : M value :=
  match body r with
  | Parsed v => ret v
  | Malformed msg => throw (Error msg)
  end.

Definition api_current : string := "/api/current".
Definition retry_with_admin : string := "/retry_with_admin".

Definition admin_required : string := "Administrative privileges required".
Definition fetch_failed : string := "Failed to fetch system data".
Definition admin_failed : string := "Failed to obtain administrative access".

(** ** The rendered tree *)

Inductive handler : Type := HandleRetryWithAdmin.

Inductive vnode : Type :=
| Text (s : string)
| Elem (tag : string) (props : list (string * string))
       (onClick : option handler) (children : list vnode).

(** A JSX text child; React makes no node of the empty string. *)
Definition text (s : string) : list vnode :=
  if (s =? "")%string then [] else [Text s].

(** [s.includes(needle)] *)
Fixpoint includes (needle s : string) : bool :=
  prefix needle s ||
  match s with
  | EmptyString => false
  | String _ rest => includes needle rest
  end.

Definition obind {A B : Type} (o : outcome A) (k : A -> outcome B) : outcome B :=
  match o with
  | Normal a => k a
  | Throw e => Throw e
  end.

Notation "x <- c ;;; k" := (obind c (fun x => k))
  (at level 100, c at next level, right associativity) : js_scope.

Section Client.

Variable eng : engine.
Variable net : remote.

(** [v.k] for a value that came out of [JSON.parse].  The property
    names the component reads are not names of built-in prototype
    members other than [length]. *)
Definition get_prop (v : value) (k : string) : outcome value :=
  match v with
  | VUndefined | VNull => Throw (Error (type_error_message eng (ReadOfNullish k)))
  | VBool _ | VNum _ => Normal VUndefined
  | VStr s =>
      if (k =? "length")%string then Normal (num_of_nat (String.length s))
      else match lookup_index k 0 (chars s) with
           | Some c => Normal (VStr c)
           | None => Normal VUndefined
           end
  | VArr items =>
      if (k =? "length")%string then Normal (num_of_nat (List.length items))
      else match lookup_index k 0 items with
           | Some x => Normal x
           | None => Normal VUndefined
           end
  | VObj entries =>
      match lookup k entries with
      | Some x => Normal x
      | None => Normal VUndefined
      end
  end.

(** The promise of the [n]-th request settles. *)
Definition await_response (n : nat) (url : string) : M response :=
  match net n url with
  | Resolved r => ret r
  | Rejected msg => throw (Error msg)
  end.

(** [await fetch(url)] *)
Definition fetch (url : string) : M response :=
  n <- send url ;;
  await_response n url.

(** The condition of the inner [if] of [fetchData]:
    [status === 401 || (status === 500 && (await response.json()).suggest_admin)],
    evaluated left to right with short-circuiting. *)
Definition needs_admin (r : response) : M bool :=
  if status r =? 401 then ret true
  else if status r =? 500 then
    parsed <- json r ;;
    flag <- lift (get_prop parsed "suggest_admin") ;;
    ret (truthy flag)
  else ret false.

(** The body of the [try] block of [fetchData] from the point where
    the [fetch] promise has resolved. *)
Definition fetchData_response (r : response) : M unit :=
  (if negb (ok r) then
     admin <- needs_admin r ;;
     if (admin : bool) then throw (Error admin_required)
     else throw (Error fetch_failed)
   else ret tt) ;;
  result <- json r ;;
  setData result ;;
  setError None.

Definition fetchData : M unit :=
  finally
    (try_catch
       (setLoading true ;;
        r <- fetch api_current ;;
        fetchData_response r)
       (fun err => setError (Some (message err))))
    (setLoading false).

(** [fetchData] up to its first [await]: the request is on the wire and
    the component shows the spinner.  The result is the number of the
    request. *)
Definition fetchData_pending : M nat :=
  setLoading true ;;
  send api_current.

(** [fetchData] from the moment the promise of request [n] settles. *)
Definition fetchData_resume (n : nat) : M unit :=
  finally
    (try_catch
       (r <- await_response n api_current ;;
        fetchData_response r)
       (fun err => setError (Some (message err))))
    (setLoading false).

(** The component state in which [fetchData] leaves [s] when its
    [fetch] settles as [o]; [fetchData_runs] relates it to the code. *)
Definition settled (s : state) (o : fetch_outcome) : state :=
  match o with
  | Rejected msg => mkState (data s) false (Some msg)
  | Resolved r =>
      if ok r then
        match body r with
        | Parsed v => mkState v false None
        | Malformed msg => mkState (data s) false (Some msg)
        end
      else
        mkState (data s) false
          (Some
             (if status r =? 401 then admin_required
              else if status r =? 500 then
                match body r with
                | Malformed msg => msg
                | Parsed v =>
                    match get_prop v "suggest_admin" with
                    | Throw e => message e
                    | Normal flag => if truthy flag then admin_required else fetch_failed
                    end
                end
              else fetch_failed))
  end.

(** A response that makes the inner [if] of [fetchData] true. *)
Definition escalates (r : response) : Prop :=
  status r = 401 \/
  (status r = 500 /\
   exists v flag, body r = Parsed v /\
                  get_prop v "suggest_admin" = Normal flag /\
                  truthy flag = true).

(** The body that a successful poll stores: the response is ok and its
    body parses. *)
Definition success (o : fetch_outcome) : option value :=
  match o with
  | Resolved r => if ok r then match body r with
                               | Parsed v => Some v
                               | Malformed _ => None
                               end
                  else None
  | Rejected _ => None
  end.

(** The urls of the requests sent after the log had [n] entries. *)
Definition sent_since (n : nat) (w : world) : list string :=
  map snd (skipn n (requests w)).

(** [fetchData()] inside [handleRetryWithAdmin] is not awaited.  It
    cannot reject, and nothing follows it in the handler, so running it
    in place gives the same final world. *)
Definition handleRetryWithAdmin : M unit :=
  try_catch
    (r <- fetch retry_with_admin ;;
     if ok r then fetchData else ret tt)
    (fun _ => setError (Some admin_failed)).

(** ** Timers and the mount effect *)

(** [setInterval(cb, ms)]: the first firing is [ms] after the call. *)
Definition setInterval (cb : callback) (ms : Z) : M nat :=
  fun w => (Normal (next_timer w),
            mkWorld (st w) (requests w) (clock w)
                    (timers w ++ [mkTimer (next_timer w) cb ms (clock w + ms)])
                    (S (next_timer w))).

Definition clearInterval (id : nat) : M unit :=
  fun w => (Normal tt,
            mkWorld (st w) (requests w) (clock w)
                    (filter (fun t => negb (tid t =? id)%nat) (timers w))
                    (next_timer w)).

Definition run_callback (cb : callback) : M unit :=
  match cb with
  | CbFetchData => fetchData
  end.

(** The effect of [useEffect(..., [])].  Its result is the interval id
    that the returned cleanup closes over. *)
Definition mount_effect : M nat :=
  fetchData ;;
  interval <- setInterval CbFetchData 5000 ;;
  ret interval.

Definition cleanup (interval : nat) : M unit := clearInterval interval.

Definition rearm (t : timer) : timer :=
  mkTimer (tid t) (handler_of t) (period t) (due t + period t).

(** One timer of the list that was registered when the millisecond
    began: if it is due and still registered it is re-armed one period
    later and its callback runs.  What the callback returns or throws is
    dropped by the event loop.  The callback is run to its end within
    the millisecond, so the timeline fixes when requests are sent and
    which timers exist, not when the answers arrive: a poll still in
    flight at the next tick is [fetchData_pending] followed, later, by
    [fetchData_resume]. *)
Definition fire (t : timer) : M unit :=
  fun w =>
    if (due t =? clock w)%Z && existsb (fun t' => (tid t' =? tid t)%nat) (timers w) then
      let w1 := mkWorld (st w) (requests w) (clock w)
                  (map (fun t' => if (tid t' =? tid t)%nat then rearm t' else t') (timers w))
                  (next_timer w) in
      (Normal tt, snd (run_callback (handler_of t) w1))
    else (Normal tt, w).

Fixpoint fire_all (ts : list timer) : M unit :=
  match ts with
  | [] => ret tt
  | t :: rest => fire t ;; fire_all rest
  end.

(** One millisecond passes. *)
Definition tick : M unit :=
  fun w =>
    let w1 := mkWorld (st w) (requests w) (clock w + 1) (timers w) (next_timer w) in
    fire_all (timers w1) w1.

Fixpoint advance (ms : nat) : M unit :=
  match ms with
  | O => ret tt
  | S n => advance n ;; tick
  end.

(** ** Rendering *)

(** [String(v)].  A parsed object has no callable [toString] of its
    own: with an own property of that name the conversion to a
    primitive fails, without one [Object.prototype.toString] answers.
    An array is joined, its [null] and [undefined] elements being
    empty and the others converted in turn. *)
Fixpoint js_string (v : value) : outcome string :=
  match v with
  | VUndefined => Normal "undefined"
  | VNull => Normal "null"
  | VBool true => Normal "true"
  | VBool false => Normal "false"
  | VNum q => Normal (number_to_string eng q)
  | VStr s => Normal s
  | VArr items =>
      parts <-
        (fix join (l : list value) : outcome (list string) :=
           match l with
           | [] => Normal []
           | x :: rest =>
               part <- match x with
                       | VUndefined | VNull => Normal ""
                       | _ => js_string x
                       end ;;;
               parts <- join rest ;;;
               Normal (part :: parts)
           end) items ;;;
      Normal (String.concat "," parts)
  | VObj entries =>
      match lookup "toString" entries with
      | Some _ => Throw (Error (type_error_message eng NotPrimitive))
      | None => Normal "[object Object]"
      end
  end.

(** ToNumber; [None] is NaN.  An object or an array goes through its
    string, as [Object.prototype.valueOf] returns the object itself. *)
Definition to_number (v : value) : outcome (option Q) :=
  match v with
  | VUndefined => Normal None
  | VNull => Normal (Some 0%Q)
  | VBool true => Normal (Some 1%Q)
  | VBool false => Normal (Some 0%Q)
  | VNum q => Normal (Some q)
  | VStr s => Normal (string_to_number eng s)
  | VArr _ | VObj _ =>
      s <- js_string v ;;;
      Normal (string_to_number eng s)
  end.

(** [v > 0] *)
Definition gt_zero (v : value) : outcome bool :=
  n <- to_number v ;;;
  Normal match n with
         | Some q => negb (Qle_bool q 0%Q)
         | None => false
         end.

(** The text nodes React makes of a value used as a JSX child: nothing
    for [undefined], [null], booleans and the empty string; arrays are
    flattened; an object is refused. *)
Fixpoint child_texts (v : value) : outcome (list string) :=
  match v with
  | VUndefined | VNull | VBool _ => Normal []
  | VNum q => Normal [number_to_string eng q]
  | VStr s => Normal (if (s =? "")%string then [] else [s])
  | VArr items =>
      fold_right (fun x acc =>
                    match child_texts x, acc with
                    | Normal a, Normal b => Normal (a ++ b)
                    | Throw e, _ => Throw e
                    | _, Throw e => Throw e
                    end) (Normal []) items
  | VObj _ => Throw (Error (type_error_message eng InvalidChild))
  end.

Definition render_child (v : value) : outcome (list vnode) :=
  match child_texts v with
  | Normal l => Normal (map Text l)
  | Throw e => Throw e
  end.

(** [{v && children}]: a falsy [v] is itself the child. *)
Definition and_then (v : value) (children : outcome (list vnode)) : outcome (list vnode) :=
  if truthy v then children else render_child v.

(** [Object.entries(v)] for a truthy [v]. *)
Definition object_entries (v : value) : list (string * value) :=
  match v with
  | VObj entries => entries
  | VArr items => combine (map index_name (seq 0 (List.length items))) items
  | VStr s => combine (map index_name (seq 0 (String.length s))) (map VStr (chars s))
  | _ => []
  end.

Definition spinner : vnode :=
  Elem "Card" [("className", "w-full max-w-4xl")] None
    [Elem "CardContent" [("className", "p-6 flex items-center justify-center")] None
       [Elem "Loader2" [("className", "h-8 w-8 animate-spin")] None []]].

Definition retry_button : vnode :=
  Elem "Button" [("className", "mt-4"); ("variant", "secondary")]
    (Some HandleRetryWithAdmin) [Text "Retry with Admin Privileges"].

Definition error_alert (e : string) : vnode :=
  Elem "Alert" [("variant", "destructive"); ("className", "w-full max-w-4xl")] None
    [Elem "AlertDescription" [] None
       (text e ++
        (if includes "Administrative privileges" e then [retry_button] else []))].

Definition info_row (kv : string * value) : outcome vnode :=
  let (key, v) := kv in
  shown <- js_string v ;;;
  Normal
    (Elem "div" [("key", key); ("className", "text-sm")] None
       (Elem "span" [("className", "font-medium")] None (text key ++ [Text ": "])
        :: text shown)).

(** [entries.map(([key, value]) => ...)], one row after the other. *)
Fixpoint info_rows (entries : list (string * value)) : outcome (list vnode) :=
  match entries with
  | [] => Normal []
  | kv :: rest =>
      row <- info_row kv ;;;
      rows <- info_rows rest ;;;
      Normal (row :: rows)
  end.

Definition system_info_block (d : value) : outcome (list vnode) :=
  diagnostics <- get_prop d "diagnostics" ;;;
  system_info <- get_prop diagnostics "system_info" ;;;
  rows <- info_rows (if truthy system_info then object_entries system_info else []) ;;;
  Normal
    [Elem "div" [] None
       [Elem "h3" [("className", "font-medium mb-2")] None [Text "System Info"];
        Elem "div" [("className", "grid grid-cols-2 gap-2")] None rows]].

Definition warning_item (i : nat) (warning : value) : outcome vnode :=
  c <- render_child warning ;;;
  Normal (Elem "li" [("key", index_name i)] None c).

Fixpoint warning_items (i : nat) (ws : list value) : outcome (list vnode) :=
  match ws with
  | [] => Normal []
  | x :: rest =>
      item <- warning_item i x ;;;
      items <- warning_items (S i) rest ;;;
      Normal (item :: items)
  end.

(** The call [warnings.map(...)]: it needs an array, and makes one
    [<li>] for each of its items. *)
Definition warnings_map (warnings : value) : outcome (list value) :=
  match warnings with
  | VArr items => Normal items
  | VUndefined | VNull =>
      Throw (Error (type_error_message eng (ReadOfNullish "map")))
  | _ => Throw (Error (type_error_message eng (NotAFunction "map")))
  end.

(** The list of warnings as React accepts it: the children of the
    [<li>]s are checked then. *)
Definition warnings_list (items : list value) : outcome (list vnode) :=
  lis <- warning_items 0 items ;;;
  Normal
    [Elem "div" [("className", "mt-2")] None
       [Elem "div" [("className", "font-medium")] None [Text "Warnings:"];
        Elem "ul" [("className", "list-disc pl-4")] None lis]].

(** The analysis block for a truthy [analysis].  The expressions of the
    JSX are evaluated while [SystemMonitor] runs, in source order: the
    status is read, then [warnings?.length > 0] and, when it holds,
    [warnings.map].  React checks the children afterwards, in document
    order: the status, then the items of the list. *)
Definition analysis_view (analysis : value) : outcome (list vnode) :=
  status <- get_prop analysis "status" ;;;
  warnings <- get_prop analysis "warnings" ;;;
  (* warnings?.length *)
  len <- (match warnings with
          | VUndefined | VNull => Normal VUndefined
          | _ => get_prop warnings "length"
          end) ;;;
  positive <- gt_zero len ;;;
  items <- (if (positive : bool) then
              mapped <- warnings_map warnings ;;; Normal (Some mapped)
            else Normal None) ;;;
  status_text <- render_child status ;;;
  ws <- (match items with
         | Some l => warnings_list l
         | None => Normal []
         end) ;;;
  Normal
    [Elem "div" [] None
       [Elem "h3" [("className", "font-medium mb-2")] None [Text "Analysis"];
        Elem "div" [("className", "text-sm")] None
          (Elem "div" [] None (Text "Status: " :: status_text) :: ws)]].

Definition analysis_block (d : value) : outcome (list vnode) :=
  analysis <- get_prop d "analysis" ;;;
  and_then analysis (analysis_view analysis).

Definition diagnostics_card (d : value) : outcome vnode :=
  content <-
    and_then d
      (info <- system_info_block d ;;;
       analysis <- analysis_block d ;;;
       Normal [Elem "div" [("className", "space-y-4")] None (info ++ analysis)]) ;;;
  Normal
    (Elem "Card" [("className", "w-full max-w-4xl")] None
       [Elem "CardHeader" [] None [Elem "CardTitle" [] None [Text "System Diagnostics"]];
        Elem "CardContent" [] None content]).

(** [if (error)]: the state is [null] or a string. *)
Definition error_shown (s : state) : option string :=
  match error s with
  | Some e => if (e =? "")%string then None else Some e
  | None => None
  end.

(** What [SystemMonitor] returns for the current state. *)
Definition SystemMonitor (s : state) : outcome vnode :=
  if loading s then Normal spinner
  else match error_shown s with
       | Some e => Normal (error_alert e)
       | None => diagnostics_card (data s)
       end.

(** ** The page: [SystemMonitor] mounted in the event loop *)

Record page : Type := mkPage {
  page_world : world;
  mounted : option nat     (* the interval id held by the cleanup *)
}.

Inductive event : Type :=
| Mount
| Advance (ms : nat)
| Click (h : handler)
| Unmount.

Fixpoint handlers_of (n : vnode) : list handler :=
  match n with
  | Text _ => []
  | Elem _ _ h children =>
      (match h with Some x => [x] | None => [] end) ++ flat_map handlers_of children
  end.

(** The handlers a click can reach: those of the tree on screen. *)
Definition clickable (s : state) : list handler :=
  match SystemMonitor s with
  | Normal tree => handlers_of tree
  | Throw _ => []
  end.

Definition run_handler (h : handler) : M unit :=
  match h with
  | HandleRetryWithAdmin => handleRetryWithAdmin
  end.

Definition handler_eqb (a b : handler) : bool :=
  match a, b with
  | HandleRetryWithAdmin, HandleRetryWithAdmin => true
  end.

Definition step (p : page) (ev : event) : page :=
  match ev, mounted p with
  | Mount, None =>
      match mount_effect (page_world p) with
      | (Normal interval, w) => mkPage w (Some interval)
      | (Throw _, w) => mkPage w None
      end
  | Advance ms, _ => mkPage (snd (advance ms (page_world p))) (mounted p)
  | Click h, Some _ =>
      if existsb (handler_eqb h) (clickable (st (page_world p)))
      then mkPage (snd (run_handler h (page_world p))) (mounted p)
      else p
  | Unmount, Some interval => mkPage (snd (cleanup interval (page_world p))) None
  | _, _ => p
  end.

Definition run (p : page) (evs : list event) : page := fold_left step evs p.

End Client.

(** ** Vocabulary of the statements *)

(** The polls of a component mounted at time [t0] and left alone for
    [ms] milliseconds: one at [t0] and one every 5000 ms after it. *)
Definition poll_times (t0 : Z) (ms : nat) : list (Z * string) :=
  map (fun k => (t0 + 5000 * Z.of_nat k, api_current)) (seq 0 (S (ms / 5000))).

(** The text of a tree, in document order. *)
Fixpoint visible_text (n : vnode) : list string :=
  match n with
  | Text s => [s]
  | Elem _ _ _ children => flat_map visible_text children
  end.

(** A node and everything below it, in document order. *)
Fixpoint descendants (n : vnode) : list vnode :=
  n :: match n with
       | Text _ => []
       | Elem _ _ _ children => flat_map descendants children
       end.

(** The world while the interval is alive: [ms] milliseconds after a
    mount at [t0], with [q] whole periods gone. *)
Definition polling (t0 : Z) (id : nat) (before : list (Z * string))
    (ms q : nat) (w : world) : Prop :=
  (5000 * q <= ms < 5000 * (q + 1))%nat /\
  clock w = t0 + Z.of_nat ms /\
  timers w = [mkTimer id CbFetchData 5000 (t0 + 5000 * Z.of_nat (q + 1))] /\
  requests w =
    before ++ map (fun k => (t0 + 5000 * Z.of_nat k, api_current)) (seq 0 (S q)).

(** A response body of the shape the API documents:
    [{ diagnostics: { system_info, metrics }, analysis: { status, warnings } }]. *)
Definition api_body (system_info : list (string * value)) (metrics : value)
    (status : string) (warnings : list string) : value :=
  VObj [("diagnostics", VObj [("system_info", VObj system_info); ("metrics", metrics)]);
        ("analysis", VObj [("status", VStr status);
                           ("warnings", VArr (map VStr warnings))])].

(** Induction on trees, with the hypothesis for every child. *)
Fixpoint vnode_forall_ind (P : vnode -> Prop)
    (HText : forall s, P (Text s))
    (HElem : forall tag props h children,
        Forall P children -> P (Elem tag props h children))
    (n : vnode) : P n :=
  match n with
  | Text s => HText s
  | Elem tag props h children =>
      HElem tag props h children
        ((fix all (l : list vnode) : Forall P l :=
            match l with
            | [] => Forall_nil P
            | x :: rest =>
                Forall_cons x (vnode_forall_ind P HText HElem x) (all rest)
            end) children)
  end.

(** The retry button is on screen. *)
Definition button_shown (eng : engine) (s : state) : Prop :=
  exists tree, SystemMonitor eng s = Normal tree /\ In retry_button (descendants tree).

Definition class_name (n : vnode) : string :=
  match n with
  | Text _ => ""
  | Elem _ props _ _ =>
      match find (fun kv => (fst kv =? "className")%string) props with
      | Some kv => snd kv
      | None => ""
      end
  end.

(** The element carries one of the red classes. *)
Definition highlighted (n : vnode) : bool := includes "red" (class_name n).

(** The parts of a body that [SystemMonitor] reads, wherever they stand
    among its fields: [diagnostics.system_info] with the entries [si],
    and [analysis] with the entries [aentries]. *)
Definition body_parts (d : value) (si aentries : list (string * value)) : Prop :=
  exists entries dentries,
    d = VObj entries /\
    lookup "diagnostics" entries = Some (VObj dentries) /\
    lookup "system_info" dentries = Some (VObj si) /\
    lookup "analysis" entries = Some (VObj aentries).

(** A body of the documented shape, whatever else it holds and in
    whatever order: its [status] is a string and its [warnings] are
    strings. *)
Definition documented (d : value) (si : list (string * value))
    (status : string) (ws : list string) : Prop :=
  exists aentries,
    body_parts d si aentries /\
    lookup "status" aentries = Some (VStr status) /\
    lookup "warnings" aentries = Some (VArr (map VStr ws)).

(** [String(value)] is defined for every value of [si]; [strs] are the
    strings. *)
Definition stringified (eng : engine) (si : list (string * value))
    (strs : list string) : Prop :=
  Forall2 (fun kv s => js_string eng (snd kv) = Normal s) si strs.

(** The text of the rows of [si]: key, colon, string. *)
Definition rows_text (si : list (string * value)) (strs : list string) : list string :=
  flat_map (fun ks => filter (fun s => negb (s =? "")%string) [fst ks; ": "; snd ks])
           (combine (map fst si) strs).

Definition nonempty (l : list string) : list string :=
  filter (fun s => negb (s =? "")%string) l.

Definition count_url (url : string) (log : list (Z * string)) : nat :=
  List.length (filter (fun r => (snd r =? url)%string) log).

(** ** The static panels of [SystemMonitorDashboard] *)

Record cpu_data : Type := mkCpu { cpu_usage : Q; temperature : Q }.
Record memory_data : Type := mkMemory { used : Q; total : Q }.
Record disk_data : Type := mkDisk { name : string; disk_usage : Q }.
Record network_data : Type := mkNetwork { download : Q; upload : Q }.

Record system_data : Type := mkSystemData {
  cpu : cpu_data;
  memory : memory_data;
  disk : list disk_data;
  network : network_data
}.

Record alert_entry : Type := mkAlert {
  alert_type : string;
  alert_message : string;
  alert_timestamp : string
}.

(** The argument of [useState] for [systemData]; [setSystemData] is
    never called. *)
Definition systemData : system_data :=
  mkSystemData (mkCpu 45 62) (mkMemory 65 16)
    [mkDisk "C:" 75; mkDisk "D:" 40] (mkNetwork 85 45).

Definition alerts : list alert_entry :=
  [mkAlert "warning" "High CPU Usage" "2024-01-26 14:32";
   mkAlert "critical" "Low Disk Space on C:" "2024-01-26 14:15"].

(** [a > b] on numbers *)
Definition gt (a b : Q) : bool := negb (Qle_bool a b).

Section Dashboard.

Variable eng : engine.

Definition num (q : Q) : list vnode := text (number_to_string eng q).

Definition cpu_badge (sd : system_data) : vnode :=
  Elem "span"
    [("className",
      ("px-2 py-1 rounded " ++
       (if gt (cpu_usage (cpu sd)) 80 then "bg-red-100 text-red-600"
        else "bg-green-100 text-green-600"))%string)] None
    (num (cpu_usage (cpu sd)) ++ [Text "%"]).

Definition memory_badge (sd : system_data) : vnode :=
  Elem "span"
    [("className",
      ("px-2 py-1 rounded " ++
       (if gt (used (memory sd)) 80 then "bg-red-100 text-red-600"
        else "bg-green-100 text-green-600"))%string)] None
    (num (used (memory sd)) ++ [Text "%"]).

Definition disk_bar (d : disk_data) : vnode :=
  Elem "div"
    [("className",
      ("h-2.5 rounded-full " ++
       (if gt (disk_usage d) 80 then "bg-red-500" else "bg-green-500"))%string);
     ("style.width", (number_to_string eng (disk_usage d) ++ "%")%string)] None [].

Definition disk_row (i : nat) (d : disk_data) : vnode :=
  Elem "div" [("key", index_name i); ("className", "mb-4")] None
    [Elem "div" [("className", "flex justify-between mb-2")] None
       [Elem "span" [] None (text (name d));
        Elem "span" [] None (num (disk_usage d) ++ [Text "%"])];
     Elem "div" [("className", "w-full bg-gray-200 rounded-full h-2.5")] None
       [disk_bar d]].

Fixpoint disk_rows (i : nat) (ds : list disk_data) : list vnode :=
  match ds with
  | [] => []
  | d :: rest => disk_row i d :: disk_rows (S i) rest
  end.

Definition panel_title (icon : vnode) (title : string) : vnode :=
  Elem "div" [("className", "flex items-center space-x-2")] None
    [icon; Elem "h2" [("className", "text-xl font-semibold")] None [Text title]].

Definition panel (children : list vnode) : vnode :=
  Elem "div" [("className", "bg-white p-6 rounded-lg shadow-md")] None children.

Definition panel_header (children : list vnode) : vnode :=
  Elem "div" [("className", "flex justify-between items-center mb-4")] None children.

(** The chart; its [data] prop ([cpuData]) is a constant array and has
    no place among the string props of the tree. *)
Definition cpu_chart : vnode :=
  Elem "ResponsiveContainer" [("width", "100%"); ("height", "100")] None
    [Elem "LineChart" [] None
       [Elem "Line" [("type", "monotone"); ("dataKey", "usage");
                     ("stroke", "#8884d8"); ("strokeWidth", "2")] None []]].

Definition cpu_panel (sd : system_data) : vnode :=
  panel [panel_header [panel_title (Elem "Cpu" [] None []) "CPU"; cpu_badge sd];
         cpu_chart].

Definition memory_panel (sd : system_data) : vnode :=
  panel
    [panel_header [panel_title (Elem "MemoryStick" [] None []) "Memory"; memory_badge sd];
     Elem "div" [("className", "flex items-center space-x-2")] None
       [Elem "div" [("className", "w-full bg-gray-200 rounded-full h-2.5")] None
          [Elem "div" [("className", "bg-blue-600 h-2.5 rounded-full");
                       ("style.width", (number_to_string eng (used (memory sd)) ++ "%")%string)]
             None []];
        Elem "span" [] None (num (total (memory sd)) ++ [Text " GB"])]].

Definition alert_row (i : nat) (a : alert_entry) : vnode :=
  Elem "div"
    [("key", index_name i);
     ("className",
      ("flex justify-between items-center p-2 rounded mb-2 " ++
       (if (alert_type a =? "critical")%string
        then "bg-red-50 border-l-4 border-red-500"
        else "bg-yellow-50 border-l-4 border-yellow-500"))%string)] None
    [Elem "div" [] None
       [Elem "p" [("className", "font-medium")] None (text (alert_message a));
        Elem "p" [("className", "text-xs text-gray-500")] None (text (alert_timestamp a))];
     Elem "ChevronRight" [("size", "16")] None []].

Fixpoint alert_rows (i : nat) (l : list alert_entry) : list vnode :=
  match l with
  | [] => []
  | a :: rest => alert_row i a :: alert_rows (S i) rest
  end.

Definition alerts_panel (l : list alert_entry) : vnode :=
  panel
    (panel_header
       [panel_title (Elem "AlertCircle" [("color", "orange")] None []) "Alerts";
        Elem "span" [("className", "bg-red-100 text-red-600 px-2 py-1 rounded")] None
          (num (inject_Z (Z.of_nat (List.length l))))]
     :: alert_rows 0 (firstn 3 l)).

Definition disk_panel (sd : system_data) : vnode :=
  panel
    (panel_header [panel_title (Elem "HardDrive" [] None []) "Disk Usage"]
     :: disk_rows 0 (disk sd)).

Definition speed (arrow : string) (q : Q) (label : string) : vnode :=
  Elem "div" [("className", "text-center")] None
    [Elem "div" [("className", "flex justify-center items-center space-x-2 mb-2")] None
       [Elem "span" [] None [Text arrow];
        Elem "span" [("className", "font-semibold")] None (num q ++ [Text " Mbps"])];
     Elem "p" [("className", "text-sm text-gray-500")] None [Text label]].

(** The arrows are the characters that the references [&#8595;] and
    [&#8593;] of the source stand for, in UTF-8. *)
Definition network_panel (sd : system_data) : vnode :=
  panel
    [panel_header [panel_title (Elem "Network" [] None []) "Network"];
     Elem "div" [("className", "grid grid-cols-2 gap-4")] None
       [speed "↓" (download (network sd)) "Download Speed";
        speed "↑" (upload (network sd)) "Upload Speed"]].

(** The tree of [SystemMonitorDashboard]; [monitor] is what the nested
    [<SystemMonitor />] rendered. *)
Definition SystemMonitorDashboard
    (sd : system_data) (l : list alert_entry) (monitor : vnode) : vnode :=
  Elem "div" [("className", "bg-gray-100 min-h-screen p-6")] None
    [Elem "div" [("className", "container mx-auto")] None
       [Elem "header" [("className", "flex justify-between items-center mb-6")] None
          [Elem "h1" [("className", "text-3xl font-bold text-gray-800")] None
             [Text "System Monitor Pro"];
           Elem "div" [("className", "flex items-center space-x-4")] None
             [Elem "span" [("className", "text-green-600 font-semibold")] None
                [Text "Connected"];
              Elem "Server" [("color", "green"); ("size", "24")] None []]];
        Elem "div" [("className", "grid grid-cols-1 md:grid-cols-3 gap-6")] None
          [cpu_panel sd; memory_panel sd; alerts_panel l];
        Elem "div" [("className", "grid grid-cols-1 md:grid-cols-2 gap-6 mt-6")] None
          [disk_panel sd; network_panel sd];
        Elem "div" [("className", "mt-6")] None [monitor]]].

End Dashboard.

(** ** Configuration thresholds *)

(** Modelled from the spec: the Configuration thresholds ([config.py]
    is not among the sources).  The spec names [cpu_usage_max],
    [memory_usage_max] and [disk_usage_max]; the values are those of the
    README's [.env] file. *)
Record Configuration : Type := mkConfiguration {
  cpu_usage_max : Q;
  memory_usage_max : Q;
  disk_usage_max : Q
}.

Definition env_thresholds : Configuration := mkConfiguration 90 90 90.

(** ** The alert dispatcher *)

Module AlertDispatcher.

(** Modelled from the spec: the AlertDispatcher and the records it
    works on ([alerts.py] and [analyzer.py] are not among the sources).
    Section 4.5: [dispatch(result, previous)] returns a sequence of
    AlertRecords; alerts fire only on breaches that are new relative to
    [previous]; a (category, severity) pair that was already
    warning/critical in [previous] is suppressed; every enabled channel
    is invoked on its own and disabled channels are skipped.  Section 2:
    the records are deduplicated.  Section 3: an AlertRecord has a
    channel, a message, a dedup key (category + severity) and the time
    it was sent. *)

Inductive category : Type := CPU | Memory | Disk | Network | Sensors.
Inductive severity : Type := Warning | Critical.
Inductive status : Type := StatusOk | StatusWarning | StatusCritical.
Inductive channel : Type := Email | Webhook.

Definition key : Type := (category * severity)%type.

(** One warning of an AnalysisResult: the breach it reports and its
    human-readable text. *)
Record breach : Type := mkBreach {
  breach_category : category;
  breach_severity : severity;
  breach_text : string
}.

Record AnalysisResult : Type := mkAnalysisResult {
  result_status : status;
  warnings : list breach;
  evaluated_at : Z
}.

Record AlertRecord : Type := mkAlertRecord {
  record_channel : channel;
  record_message : string;
  dedup_key : key;
  sent_at : Z
}.

Record channels : Type := mkChannels {
  email_enabled : bool;
  webhook_enabled : bool
}.

Definition category_eqb (a b : category) : bool :=
  match a, b with
  | CPU, CPU | Memory, Memory | Disk, Disk | Network, Network | Sensors, Sensors => true
  | _, _ => false
  end.

Definition severity_eqb (a b : severity) : bool :=
  match a, b with
  | Warning, Warning | Critical, Critical => true
  | _, _ => false
  end.

Definition channel_eqb (a b : channel) : bool :=
  match a, b with
  | Email, Email | Webhook, Webhook => true
  | _, _ => false
  end.

Definition key_eqb (a b : key) : bool :=
  category_eqb (fst a) (fst b) && severity_eqb (snd a) (snd b).

Definition key_of (b : breach) : key := (breach_category b, breach_severity b).

(** The pair [k] is warning/critical in [r]. *)
Definition breached (r : AnalysisResult) (k : key) : bool :=
  existsb (fun b => key_eqb (key_of b) k) (warnings r).

Definition was_breached (previous : option AnalysisResult) (k : key) : bool :=
  match previous with
  | Some p => breached p k
  | None => false
  end.

Definition enabled_channels (cfg : channels) : list channel :=
  (if email_enabled cfg then [Email] else []) ++
  (if webhook_enabled cfg then [Webhook] else []).

(** The breaches that raise an alert: new relative to [previous], one
    per dedup key ([seen] holds the keys already taken this cycle). *)
Fixpoint new_breaches (previous : option AnalysisResult) (seen : list key)
    (bs : list breach) : list breach :=
  match bs with
  | [] => []
  | b :: rest =>
      if was_breached previous (key_of b) || existsb (key_eqb (key_of b)) seen
      then new_breaches previous seen rest
      else b :: new_breaches previous (key_of b :: seen) rest
  end.

Definition dispatch (cfg : channels) (now : Z)
    (result : AnalysisResult) (previous : option AnalysisResult) : list AlertRecord :=
  flat_map
    (fun b => map (fun c => mkAlertRecord c (breach_text b) (key_of b) now)
                  (enabled_channels cfg))
    (new_breaches previous [] (warnings result)).

(** Section 4.7: on each tick the dispatcher compares the new result
    with the previous cached one.  The alert log of a run of cycles. *)
Fixpoint run_cycles (cfg : channels) (previous : option AnalysisResult)
    (results : list AnalysisResult) : list AlertRecord :=
  match results with
  | [] => []
  | r :: rest =>
      dispatch cfg (evaluated_at r) r previous ++ run_cycles cfg (Some r) rest
  end.

(** The records of a log sent on channel [c] for the pair [k]. *)
Definition records_for (c : channel) (k : key) (log : list AlertRecord) : list AlertRecord :=
  filter (fun a => channel_eqb (record_channel a) c && key_eqb (dedup_key a) k) log.


End AlertDispatcher.

(** ** Sample inputs *)

(** An engine with the message texts of V8; its numeric conversions
    cover the non-negative integers written in digits, enough for the
    examples. *)
Definition sample_engine : engine :=
  mkEngine
    (fun t => match t with
              | ReadOfNullish k =>
                  ("Cannot read properties of null (reading '" ++ k ++ "')")%string
              | NotAFunction k => (k ++ " is not a function")%string
              | InvalidChild => "Objects are not valid as a React child"
              | NotPrimitive => "Cannot convert object to primitive value"
              end)
    (fun q => NilEmpty.string_of_uint (N.to_uint (Z.to_N (Qnum q / Zpos (Qden q)))))
    (fun s => match NilEmpty.uint_of_string s with
              | Some u => Some (inject_Z (Z.of_N (N.of_uint u)))
              | None => None
              end).

Definition constant_remote (o : fetch_outcome) : remote := fun _ _ => o.

(** The page at load, before [SystemMonitor] is mounted. *)
Definition fresh_world : world := mkWorld initial_state [] 0 [] 0.

(** The body of [sample_body] as a serializer that sorts keys writes
    it, with one more field. *)
Definition sorted_body : value :=
  VObj [("analysis", VObj [("status", VStr "warning");
                           ("warnings", VArr [VStr "CPU usage is high: 95%"])]);
        ("diagnostics", VObj [("metrics", VObj [("cpu", VNum 95)]);
                              ("system_info", VObj [("os", VStr "Linux");
                                                    ("hostname", VStr "sentinel")])]);
        ("suggest_admin", VBool false)].

Definition sample_body : value :=
  api_body [("os", VStr "Linux"); ("hostname", VStr "sentinel")] (VObj [("cpu", VNum 95)])
           "warning" ["CPU usage is high: 95%"].

Definition response_401 : response :=
  mkResponse false 401 (Parsed (VObj [("error", VStr "Unauthorized")])).

Definition response_500_admin : response :=
  mkResponse false 500
    (Parsed (VObj [("error", VStr "Permission denied"); ("suggest_admin", VBool true)])).

(** A 500 whose body is an HTML error page. *)
Definition response_500_html : response :=
  mkResponse false 500 (Malformed "Unexpected token < in JSON at position 0").

Definition response_503 : response :=
  mkResponse false 503 (Parsed (VObj [("error", VStr "not ready")])).

(** The admin error is on screen, and the interval has just started the
    next poll: [fetchData] is waiting for the network. *)
Definition repolling_world : world :=
  let net := constant_remote (Resolved response_401) in
  let shown := snd (fetchData sample_engine net fresh_world) in
  snd (fetchData_pending shown).

(** A CPU reading of 85: above the 80 of the panel, below the
    configured maximum of 90. *)
Definition warm_data : system_data :=
  mkSystemData (mkCpu 85 62) (mkMemory 65 16)
    [mkDisk "C:" 75; mkDisk "D:" 40] (mkNetwork 85 45).

(** Scenario E of the spec: a CPU breach that holds for three cycles,
    clears, and comes back. *)
Definition cpu_breach (t : Z) : AlertDispatcher.AnalysisResult :=
  AlertDispatcher.mkAnalysisResult AlertDispatcher.StatusWarning
    [AlertDispatcher.mkBreach AlertDispatcher.CPU AlertDispatcher.Warning
       "CPU usage 95% exceeds 90%"] t.

Definition all_clear (t : Z) : AlertDispatcher.AnalysisResult :=
  AlertDispatcher.mkAnalysisResult AlertDispatcher.StatusOk [] t.

Definition both_channels : AlertDispatcher.channels :=
  AlertDispatcher.mkChannels true true.

(** ** Vocabulary of the further properties *)

Section Polls.

Variable eng : engine.
Variable net : remote.

(** The polls waiting for the requests [ns] complete, in this order.
    All that a poll writes to the state after its request is written in
    one go, after its last [await], so polls that overlap act on the
    state one after the other, in the order in which they complete. *)
Fixpoint deliver (ns : list nat) : M unit :=
  match ns with
  | [] => ret tt
  | n :: rest => fetchData_resume eng net n ;; deliver rest
  end.

(** The body of the last of the answers [ns], in their order of
    arrival, that was a success. *)
Fixpoint last_success (ns : list nat) : option value :=
  match ns with
  | [] => None
  | n :: rest =>
      match last_success rest with
      | Some v => Some v
      | None => success (net n api_current)
      end
  end.

End Polls.

(** While [SystemMonitor] is mounted the page holds its interval and no
    other timer; once it is unmounted it holds none. *)
Definition one_interval (p : page) : Prop :=
  match mounted p with
  | Some id => exists d, timers (page_world p) = [mkTimer id CbFetchData 5000 d]
  | None => timers (page_world p) = []
  end.

(** Timer ids come from the counter of the page. *)
Definition fresh_ids (w : world) : Prop :=
  forall t, In t (timers w) -> (tid t < next_timer w)%nat.

Definition children_of (n : vnode) : list vnode :=
  match n with
  | Text _ => []
  | Elem _ _ _ children => children
  end.

(** The admin error is on screen. *)
Definition admin_error_world : world :=
  snd (fetchData sample_engine (constant_remote (Resolved response_401)) fresh_world).

(** A 200 whose body carries [suggest_admin]. *)
Definition response_200_degraded : response :=
  mkResponse true 200
    (Parsed (VObj [("diagnostics", VObj [("system_info", VObj [("os", VStr "Linux")])]);
                   ("suggest_admin", VBool true)])).

(** The first poll succeeds, every later one is answered 'not ready'. *)
Definition flaky_remote : remote :=
  fun n _ => match n with
             | O => Resolved (mkResponse true 200 (Parsed sample_body))
             | S _ => Resolved response_503
             end.

(** The two endpoints of the dashboard. *)
Definition known_request (r : Z * string) : Prop :=
  snd r = api_current \/ snd r = retry_with_admin.

(** A page with a timer of another component. *)
Definition busy_world : world :=
  mkWorld initial_state [] 0 [mkTimer 0 CbFetchData 30000 30000] 1.

(** Bodies that leave parts of the documented shape out. *)
Definition body_without_diagnostics : value :=
  VObj [("analysis", VObj [("status", VStr "ok"); ("warnings", VArr [])])].

(** * Properties *)

(** ** [fetchData] *)

Section FetchData.

Variable eng : engine.
Variable net : remote.

Ltac unfold_js :=
  cbv beta iota zeta delta
    [fetchData fetchData_response needs_admin handleRetryWithAdmin finally
     try_catch bind fetch await_response send json lift throw ret setLoading
     setData setError with_state];
  cbn [st requests clock timers next_timer data loading error
       ok status body negb fst snd].

(** [fetchData] always completes normally: it logs one request to
    [/api/current], leaves the clock and the timers alone, and leaves
    the component in the [settled] state. *)
Lemma fetchData_runs (w : world) :
  fetchData eng net w =
  (Normal tt,
   mkWorld (settled eng (st w) (net (List.length (requests w)) api_current))
           (requests w ++ [(clock w, api_current)])
           (clock w) (timers w) (next_timer w)).
Proof.
  unfold settled.
  destruct (net (List.length (requests w)) api_current) as [[o s b]|msg] eqn:Hnet;
    unfold_js; rewrite Hnet; unfold_js; [|reflexivity].
  destruct o; unfold_js.
  - destruct b; reflexivity.
  - destruct (s =? 401); [reflexivity|].
    destruct (s =? 500); [|reflexivity].
    destruct b as [v|msg]; [|reflexivity].
    destruct (get_prop eng v "suggest_admin") as [flag|e]; [|reflexivity].
    destruct (truthy flag); reflexivity.
Qed.

(** [fetchData] is its synchronous part followed by the part that runs
    when the response arrives; in between the component is rendered in
    the pending state. *)
Lemma fetchData_through_pending (w : world) :
  fetchData eng net w =
  fetchData_resume eng net (List.length (requests w)) (snd (fetchData_pending w)).
Proof. reflexivity. Qed.

Lemma fetchData_pending_state (w : world) :
  st (snd (fetchData_pending w)) = mkState (data (st w)) true (error (st w)).
Proof. reflexivity. Qed.

Lemma get_prop_throws (v : value) (k : string) (e : exn) :
  get_prop eng v k = Throw e ->
  message e = type_error_message eng (ReadOfNullish k).
Proof.
  destruct v; cbn [get_prop]; intros H;
    try discriminate H;
    try (injection H as <-; reflexivity).
  - destruct (k =? "length")%string; [discriminate H|].
    destruct (lookup_index k 0 (chars s)); discriminate H.
  - destruct (k =? "length")%string; [discriminate H|].
    destruct (lookup_index k 0 items); discriminate H.
  - destruct (lookup k entries); discriminate H.
Qed.

Lemma some_inj {A : Type} (a b : A) : Some a = Some b -> a = b.
Proof. congruence. Qed.

Lemma skipn_length_app {A : Type} (l new : list A) :
  skipn (List.length l) (l ++ new) = new.
Proof. induction l as [|x l IH]; [reflexivity | exact IH]. Qed.

(** The two literals [fetchData] throws are different strings. *)
Lemma admin_required_not_fetch_failed : admin_required <> fetch_failed.
Proof. discriminate. Qed.

(** C1. For a non-ok response to GET /api/current, [fetchData] records
    the error 'Administrative privileges required' if and only if the
    status is 401, or the status is 500 and the [suggest_admin] field of
    the parsed body is truthy; and in both cases it leaves the component
    in one and the same state, so the two are one user-facing condition.
    The messages the engine writes (of a failed parse, of a property
    read on null) are taken not to be that literal. *)
Theorem C1_escalation_signal (w : world) (r : response) :
  net (List.length (requests w)) api_current = Resolved r ->
  ok r = false ->
  (forall msg, body r = Malformed msg -> msg <> admin_required) ->
  type_error_message eng (ReadOfNullish "suggest_admin") <> admin_required ->
  (error (st (snd (fetchData eng net w))) = Some admin_required <-> escalates eng r) /\
  (escalates eng r ->
   st (snd (fetchData eng net w)) = mkState (data (st w)) false (Some admin_required)).
Proof.
  intros Hnet Hok Hparse Hnull.
  rewrite fetchData_runs, Hnet. cbn [snd st]. unfold settled, escalates.
  rewrite Hok. cbn [error].
  destruct (Z.eqb_spec (status r) 401) as [H401|H401].
  { split; [split; [left; exact H401 | reflexivity] | reflexivity]. }
  destruct (Z.eqb_spec (status r) 500) as [H500|H500].
  2:{ split; [split|].
      - intros H. apply some_inj in H. symmetry in H.
        destruct (admin_required_not_fetch_failed H).
      - intros [H|[H _]]; contradiction.
      - intros [H|[H _]]; contradiction. }
  destruct (body r) as [v|msg] eqn:Hbody.
  2:{ split; [split|].
      - intros H. apply some_inj in H. destruct (Hparse msg eq_refl H).
      - intros [H|[_ (v & flag & Hv & _)]]; [contradiction | discriminate Hv].
      - intros [H|[_ (v & flag & Hv & _)]]; [contradiction | discriminate Hv]. }
  destruct (get_prop eng v "suggest_admin") as [flag|e] eqn:Hget.
  2:{ pose proof (get_prop_throws _ _ _ Hget) as Hmsg.
      split; [split|].
      - intros H. apply some_inj in H. rewrite Hmsg in H. destruct (Hnull H).
      - intros [H|[_ (v' & flag & Hv & Hg & _)]]; [contradiction|].
        injection Hv as <-. rewrite Hget in Hg. discriminate Hg.
      - intros [H|[_ (v' & flag & Hv & Hg & _)]]; [contradiction|].
        injection Hv as <-. rewrite Hget in Hg. discriminate Hg. }
  destruct (truthy flag) eqn:Hflag.
  - split; [split|]; try reflexivity.
    intros _. right. split; [exact H500|].
    exists v, flag. repeat split; assumption.
  - split; [split|].
    + intros H. apply some_inj in H. symmetry in H.
      destruct (admin_required_not_fetch_failed H).
    + intros [H|[_ (v' & flag' & Hv & Hg & Ht)]]; [contradiction|].
      injection Hv as <-. rewrite Hget in Hg. injection Hg as <-.
      rewrite Hflag in Ht. discriminate Ht.
    + intros [H|[_ (v' & flag' & Hv & Hg & Ht)]]; [contradiction|].
      injection Hv as <-. rewrite Hget in Hg. injection Hg as <-.
      rewrite Hflag in Ht. discriminate Ht.
Qed.

(** C3, as amended. For a non-ok response to GET /api/current whose
    status is not 401 and which, if its status is 500, has a body that
    parses to a value whose [suggest_admin] can be read and is falsy (a
    503 'not ready' response in particular), [fetchData] completes
    without an exception escaping, records 'Failed to fetch system
    data', keeps the data and ends with loading false. *)
Theorem C3_other_failures (w : world) (r : response) :
  net (List.length (requests w)) api_current = Resolved r ->
  ok r = false ->
  status r <> 401 ->
  (status r = 500 ->
   exists v flag, body r = Parsed v /\
                  get_prop eng v "suggest_admin" = Normal flag /\
                  truthy flag = false) ->
  fst (fetchData eng net w) = Normal tt /\
  st (snd (fetchData eng net w)) = mkState (data (st w)) false (Some fetch_failed).
Proof.
  intros Hnet Hok H401 H500.
  rewrite fetchData_runs, Hnet. cbn [fst snd st]. split; [reflexivity|].
  unfold settled. rewrite Hok.
  destruct (Z.eqb_spec (status r) 401) as [E|_]; [contradiction|].
  destruct (Z.eqb_spec (status r) 500) as [E|_]; [|reflexivity].
  destruct (H500 E) as (v & flag & Hv & Hg & Ht).
  rewrite Hv, Hg, Ht. reflexivity.
Qed.

(** C8. When GET /api/current answers 500 with a body that is not valid
    JSON, [response.json()] throws inside the status check: the error
    recorded, and displayed, is the message of the parse exception, which
    is neither of the two messages of [fetchData] as long as the engine
    did not word it so; the data is kept and loading ends false. *)
Theorem C8_unparseable_500 (w : world) (r : response) (msg : string) :
  net (List.length (requests w)) api_current = Resolved r ->
  status r = 500 ->
  body r = Malformed msg ->
  msg <> "" ->
  fst (fetchData eng net w) = Normal tt /\
  st (snd (fetchData eng net w)) = mkState (data (st w)) false (Some msg) /\
  SystemMonitor eng (st (snd (fetchData eng net w))) = Normal (error_alert msg) /\
  (msg <> admin_required ->
   error (st (snd (fetchData eng net w))) <> Some admin_required) /\
  (msg <> fetch_failed ->
   error (st (snd (fetchData eng net w))) <> Some fetch_failed).
Proof.
  intros Hnet H500 Hbody Hmsg.
  rewrite fetchData_runs, Hnet. cbn [fst snd st].
  assert (Hst : settled eng (st w) (Resolved r) = mkState (data (st w)) false (Some msg)).
  { unfold settled. rewrite Hbody, H500. destruct (ok r); reflexivity. }
  rewrite Hst. repeat split.
  - unfold SystemMonitor, error_shown. cbn [loading error].
    destruct (String.eqb_spec msg ""); [contradiction | reflexivity].
  - cbn [error]. intros Hne H. apply some_inj in H. contradiction.
  - cbn [error]. intros Hne H. apply some_inj in H. contradiction.
Qed.

(** C9. Every run of [fetchData] completes, with loading false.  On
    success, and only then, data becomes the parsed body and error is
    reset to null; on every failure an error is recorded and data keeps
    its previous value. *)
Theorem C9_fetchData_outcome (w : world) :
  fst (fetchData eng net w) = Normal tt /\
  loading (st (snd (fetchData eng net w))) = false /\
  match success (net (List.length (requests w)) api_current) with
  | Some v =>
      data (st (snd (fetchData eng net w))) = v /\
      error (st (snd (fetchData eng net w))) = None
  | None =>
      data (st (snd (fetchData eng net w))) = data (st w) /\
      error (st (snd (fetchData eng net w))) <> None
  end.
Proof.
  rewrite fetchData_runs. cbn [fst snd st]. unfold settled, success.
  destruct (net (List.length (requests w)) api_current) as [r|msg].
  - destruct (ok r); [destruct (body r)|];
      cbn [loading data error]; repeat split; discriminate.
  - cbn [loading data error]. repeat split. discriminate.
Qed.

Ltac unfold_handler :=
  cbv beta iota zeta delta
    [handleRetryWithAdmin try_catch bind fetch await_response send throw ret
     setError with_state];
  cbn [st requests clock timers next_timer data loading error fst snd].

(** C2. [handleRetryWithAdmin] sends exactly one request, to
    /retry_with_admin; exactly when the response is ok it goes on to run
    [fetchData], which sends the one follow-up request to /api/current;
    when the response is not ok nothing else is sent and the state is
    untouched; when the fetch throws nothing else is sent and the error
    becomes 'Failed to obtain administrative access'.  The escalation
    itself asks for no data: the re-poll is a separate request. *)
Theorem C2_retry_then_repoll (w : world) :
  let n := List.length (requests w) in
  let w' := snd (handleRetryWithAdmin eng net w) in
  fst (handleRetryWithAdmin eng net w) = Normal tt /\
  match net n retry_with_admin with
  | Resolved r =>
      if ok r then
        sent_since n w' = [retry_with_admin; api_current] /\
        w' = snd (fetchData eng net (snd (send retry_with_admin w)))
      else
        sent_since n w' = [retry_with_admin] /\ st w' = st w
  | Rejected _ =>
      sent_since n w' = [retry_with_admin] /\
      st w' = mkState (data (st w)) (loading (st w)) (Some admin_failed)
  end.
Proof.
  intros n w'. subst n w'.
  destruct (net (List.length (requests w)) retry_with_admin) as [r|msg] eqn:Hnet.
  - destruct (ok r) eqn:Hok.
    + unfold_handler. rewrite Hnet, Hok. unfold_handler.
      rewrite fetchData_runs. cbn [fst snd requests clock].
      repeat split. unfold sent_since. cbn [requests].
      rewrite <- app_assoc, skipn_length_app. reflexivity.
    + unfold_handler. rewrite Hnet, Hok. unfold_handler.
      repeat split. unfold sent_since. cbn [requests].
      rewrite skipn_length_app. reflexivity.
  - unfold_handler. rewrite Hnet. unfold_handler.
    repeat split. unfold sent_since. cbn [requests].
    rewrite skipn_length_app. reflexivity.
Qed.

End FetchData.

(** *** [fetchData] on the sample responses *)

Lemma C1_escalation_signal_witness :
  let net := constant_remote (Resolved response_500_admin) in
  (error (st (snd (fetchData sample_engine net fresh_world))) = Some admin_required
   <-> escalates sample_engine response_500_admin) /\
  (escalates sample_engine response_500_admin ->
   st (snd (fetchData sample_engine net fresh_world))
   = mkState (data (st fresh_world)) false (Some admin_required)).
Proof.
  apply (C1_escalation_signal sample_engine
           (constant_remote (Resolved response_500_admin))
           fresh_world response_500_admin).
  - reflexivity.
  - reflexivity.
  - intros msg H. discriminate H.
  - vm_compute. discriminate.
Defined.

(** C3 without its amendment fails: a 500 whose body does not parse
    is neither a 401 nor a 500 with a truthy [suggest_admin], and the
    error recorded is not 'Failed to fetch system data'. *)
Lemma C3_counterexample :
  let net := constant_remote (Resolved response_500_html) in
  ok response_500_html = false /\
  ~ escalates sample_engine response_500_html /\
  error (st (snd (fetchData sample_engine net fresh_world)))
  = Some "Unexpected token < in JSON at position 0" /\
  error (st (snd (fetchData sample_engine net fresh_world))) <> Some fetch_failed.
Proof.
  split; [reflexivity|]. split; [|split].
  - intros [H|[_ (v & flag & Hv & _)]]; discriminate.
  - reflexivity.
  - vm_compute. discriminate.
Qed.

Lemma C3_other_failures_witness :
  let net := constant_remote (Resolved response_503) in
  fst (fetchData sample_engine net fresh_world) = Normal tt /\
  st (snd (fetchData sample_engine net fresh_world))
  = mkState (data (st fresh_world)) false (Some fetch_failed).
Proof.
  apply (C3_other_failures sample_engine
           (constant_remote (Resolved response_503)) fresh_world response_503).
  - reflexivity.
  - reflexivity.
  - cbn. discriminate.
  - cbn. discriminate.
Defined.

Lemma C8_unparseable_500_witness :
  let net := constant_remote (Resolved response_500_html) in
  let msg := "Unexpected token < in JSON at position 0" in
  fst (fetchData sample_engine net fresh_world) = Normal tt /\
  st (snd (fetchData sample_engine net fresh_world))
  = mkState (data (st fresh_world)) false (Some msg) /\
  SystemMonitor sample_engine (st (snd (fetchData sample_engine net fresh_world)))
  = Normal (error_alert msg) /\
  (msg <> admin_required ->
   error (st (snd (fetchData sample_engine net fresh_world))) <> Some admin_required) /\
  (msg <> fetch_failed ->
   error (st (snd (fetchData sample_engine net fresh_world))) <> Some fetch_failed).
Proof.
  apply (C8_unparseable_500 sample_engine
           (constant_remote (Resolved response_500_html)) fresh_world
           response_500_html "Unexpected token < in JSON at position 0").
  - reflexivity.
  - reflexivity.
  - reflexivity.
  - discriminate.
Defined.

(** ** Polling *)

Section Polling.

Variable eng : engine.
Variable net : remote.

Lemma fire_normal (t : timer) (w : world) : fst (fire eng net t w) = Normal tt.
Proof.
  unfold fire.
  destruct ((due t =? clock w) && existsb (fun t' => (tid t' =? tid t)%nat) (timers w));
    reflexivity.
Qed.

Lemma fire_all_normal (ts : list timer) (w : world) :
  fst (fire_all eng net ts w) = Normal tt.
Proof.
  revert w. induction ts as [|t ts IH]; intros w; [reflexivity|].
  cbn [fire_all]. unfold bind.
  pose proof (fire_normal t w) as Hf.
  destruct (fire eng net t w) as [[[]|e] w1]; cbn [fst] in Hf; [apply IH | discriminate Hf].
Qed.

Lemma advance_normal (n : nat) (w : world) : fst (advance eng net n w) = Normal tt.
Proof.
  revert w. induction n as [|n IH]; intros w; [reflexivity|].
  cbn [advance]. unfold bind.
  pose proof (IH w) as Hn.
  destruct (advance eng net n w) as [[[]|e] w1]; cbn [fst] in Hn; [|discriminate Hn].
  unfold tick. apply fire_all_normal.
Qed.

Lemma advance_S (n : nat) (w : world) :
  snd (advance eng net (S n) w) = snd (tick eng net (snd (advance eng net n w))).
Proof.
  cbn [advance]. unfold bind.
  pose proof (advance_normal n w) as Hn.
  destruct (advance eng net n w) as [[[]|e] w1]; cbn [fst] in Hn; [reflexivity|discriminate Hn].
Qed.

(** With no timer registered, time passes and nothing else happens. *)
Lemma advance_idle (m : nat) (w : world) :
  timers w = [] ->
  timers (snd (advance eng net m w)) = [] /\
  requests (snd (advance eng net m w)) = requests w /\
  st (snd (advance eng net m w)) = st w.
Proof.
  intros Hw. induction m as [|m (Ht & Hr & Hs)]; [cbn; auto|].
  rewrite advance_S. unfold tick. cbn [timers]. rewrite Ht. cbn [fire_all ret snd].
  cbn [timers requests st]. auto.
Qed.

Lemma polling_tick (t0 : Z) (id : nat) (before : list (Z * string))
    (ms q : nat) (w : world) :
  polling t0 id before ms q w ->
  exists q', polling t0 id before (S ms) q' (snd (tick eng net w)).
Proof.
  intros (Hq & Hc & Ht & Hr).
  unfold tick. cbn [timers]. rewrite Ht. cbn [fire_all]. unfold bind.
  unfold fire at 1. cbn [clock timers due tid existsb]. rewrite Nat.eqb_refl.
  cbn [orb andb].
  destruct (Z.eqb_spec (t0 + 5000 * Z.of_nat (q + 1)) (clock w + 1)) as [Hdue|Hdue].
  - exists (S q). cbn [andb map]. rewrite Nat.eqb_refl.
    unfold run_callback. cbn [handler_of]. rewrite fetchData_runs.
    cbn [snd ret fst requests clock timers next_timer].
    unfold polling. cbn [clock timers requests rearm tid handler_of period due].
    repeat split; try lia.
    + unfold rearm. cbn [tid handler_of period due]. f_equal. f_equal. lia.
    + rewrite Hr, <- app_assoc. f_equal.
      replace (S (S q)) with (S q + 1)%nat by lia.
      rewrite seq_app, map_app. f_equal. cbn [seq map]. f_equal. f_equal. lia.
  - exists q. cbn [andb ret snd]. unfold polling. cbn [clock timers requests].
    repeat split; try assumption; try lia.
Qed.

Lemma polling_advance (t0 : Z) (id : nat) (before : list (Z * string)) (w : world) :
  polling t0 id before 0 0 w ->
  forall ms, exists q, polling t0 id before ms q (snd (advance eng net ms w)).
Proof.
  intros H0 ms. induction ms as [|ms [q IH]].
  - exists 0%nat. exact H0.
  - rewrite advance_S. eapply polling_tick. exact IH.
Qed.

Lemma polling_periods (t0 : Z) (id : nat) (before : list (Z * string))
    (ms q : nat) (w : world) :
  polling t0 id before ms q w -> q = (ms / 5000)%nat.
Proof.
  intros (Hq & _).
  apply (Nat.div_unique ms 5000 q (ms - 5000 * q)); lia.
Qed.

Lemma mount_effect_runs (w : world) :
  mount_effect eng net w =
  (Normal (next_timer w),
   mkWorld (settled eng (st w) (net (List.length (requests w)) api_current))
           (requests w ++ [(clock w, api_current)]) (clock w)
           (timers w ++ [mkTimer (next_timer w) CbFetchData 5000 (clock w + 5000)])
           (S (next_timer w))).
Proof.
  unfold mount_effect, bind. rewrite fetchData_runs. reflexivity.
Qed.

(** C4. A [SystemMonitor] mounted at time [t0] on a page with no other
    timer polls GET /api/current at [t0] and then every 5000 ms; once it
    is unmounted the interval is gone and, however long the page lives,
    no further request is sent. *)
Theorem C4_poll_every_5000ms (w : world) (ms later : nat) :
  timers w = [] ->
  let p := run eng net (mkPage w None) [Mount; Advance ms] in
  let p' := run eng net p [Unmount; Advance later] in
  requests (page_world p) = requests w ++ poll_times (clock w) ms /\
  timers (page_world p') = [] /\
  requests (page_world p') = requests (page_world p).
Proof.
  intros Hw. cbn [run fold_left step mounted page_world].
  rewrite mount_effect_runs. cbn [page_world mounted snd].
  set (w1 := mkWorld _ _ _ _ _).
  assert (H0 : polling (clock w) (next_timer w) (requests w) 0 0 w1).
  { unfold polling, w1. cbn [clock timers requests]. rewrite Hw.
    repeat split; try lia.
    cbn [seq map]. f_equal. f_equal. f_equal. lia. }
  destruct (polling_advance _ _ _ _ H0 ms) as [q Hq].
  pose proof (polling_periods _ _ _ _ _ _ Hq) as ->.
  destruct Hq as (_ & _ & Ht & Hr).
  split; [exact Hr|].
  unfold cleanup, clearInterval. cbn [snd].
  set (w3 := mkWorld _ _ _ _ _).
  assert (H3 : timers w3 = []).
  { unfold w3. cbn [timers]. rewrite Ht. cbn [filter tid]. rewrite Nat.eqb_refl. reflexivity. }
  destruct (advance_idle later w3 H3) as (Ht' & Hr' & _).
  split; [exact Ht' | exact Hr'].
Qed.

End Polling.

#[local] Set Warnings "-abstract-large-number".

Lemma C4_poll_every_5000ms_witness :
  let net := constant_remote (Resolved response_503) in
  let p := run sample_engine net (mkPage fresh_world None) [Mount; Advance 12000] in
  let p' := run sample_engine net p [Unmount; Advance 20000] in
  requests (page_world p)
  = [(0, api_current); (5000, api_current); (10000, api_current)] /\
  timers (page_world p') = [] /\
  requests (page_world p') = requests (page_world p).
Proof.
  exact (C4_poll_every_5000ms sample_engine (constant_remote (Resolved response_503))
           fresh_world 12000 20000 eq_refl).
Defined.

(** ** Rendering *)

(** A handler of a node below [t] is a handler of [t]. *)
Lemma descendant_handlers (t n : vnode) (h : handler) :
  In n (descendants t) -> In h (handlers_of n) -> In h (handlers_of t).
Proof.
  revert n. induction t as [s|tag props o children IH] using vnode_forall_ind;
    intros n Hn Hh.
  - destruct Hn as [<-|[]]. exact Hh.
  - destruct Hn as [<-|Hn]; [exact Hh|].
    cbn [handlers_of]. apply in_or_app. right.
    apply in_flat_map in Hn. destruct Hn as (c & Hc & Hn).
    apply in_flat_map. exists c. split; [exact Hc|].
    rewrite Forall_forall in IH. exact (IH c Hc n Hn Hh).
Qed.

Lemma text_handlers (s : string) : flat_map handlers_of (text s) = [].
Proof. unfold text. destruct (s =? "")%string; reflexivity. Qed.

Lemma texts_handlers (l : list string) : flat_map handlers_of (map Text l) = [].
Proof. induction l as [|x l IH]; [reflexivity | exact IH]. Qed.

Lemma text_visible (s : string) : flat_map visible_text (text s) = nonempty [s].
Proof. unfold text, nonempty. cbn [filter]. destruct (s =? "")%string; reflexivity. Qed.

Lemma nonempty_app (a b : list string) : nonempty (a ++ b) = nonempty a ++ nonempty b.
Proof. apply filter_app. Qed.

Section Rendering.

Variable eng : engine.

Lemma gt_zero_length (n : nat) :
  gt_zero eng (num_of_nat n) = Normal (negb (n =? 0)%nat).
Proof.
  unfold gt_zero, num_of_nat, to_number, obind, Qle_bool, inject_Z. cbn [Qnum Qden].
  destruct n as [|n]; [reflexivity|].
  rewrite Z.mul_1_r. cbn [Nat.eqb negb].
  destruct (Z.leb_spec (Z.of_nat (S n)) 0); [lia|reflexivity].
Qed.

Lemma render_child_handlers (v : value) (l : list vnode) :
  render_child eng v = Normal l -> flat_map handlers_of l = [].
Proof.
  unfold render_child. destruct (child_texts eng v) as [ts|e]; intros H;
    [|discriminate H].
  injection H as <-. apply texts_handlers.
Qed.

Lemma info_rows_handlers (entries : list (string * value)) :
  forall rows, info_rows eng entries = Normal rows -> flat_map handlers_of rows = [].
Proof.
  induction entries as [|[k v] entries IH]; intros rows H; cbn [info_rows] in H.
  - injection H as <-. reflexivity.
  - unfold info_row, obind in H.
    destruct (js_string eng v) as [shown|e]; [|discriminate H].
    destruct (info_rows eng entries) as [rest|e]; [|discriminate H].
    injection H as <-. cbn [flat_map handlers_of app]. rewrite (IH rest eq_refl).
    rewrite flat_map_app, !text_handlers. reflexivity.
Qed.

(** When [String(value)] is defined for every value, every row is
    made, and its text is the key, the colon and the string. *)
Lemma info_rows_stringified (si : list (string * value)) (strs : list string) :
  stringified eng si strs ->
  exists rows,
    info_rows eng si = Normal rows /\
    flat_map visible_text rows = rows_text si strs.
Proof.
  unfold stringified, rows_text. induction 1 as [|[k v] shown si strs Hv _ (rows & Hrows & Hvis)].
  - exists []. split; reflexivity.
  - cbn [snd] in Hv. cbn [info_rows]. unfold info_row, obind. rewrite Hv, Hrows.
    eexists. split; [reflexivity|].
    cbn [map combine flat_map visible_text fst snd]. rewrite Hvis. f_equal.
    rewrite flat_map_app, !text_visible. cbn [flat_map visible_text app].
    unfold nonempty. cbn [filter String.eqb negb].
    destruct (k =? "")%string, (shown =? "")%string; reflexivity.
Qed.

Lemma warning_items_handlers (ws : list value) :
  forall i lis, warning_items eng i ws = Normal lis -> flat_map handlers_of lis = [].
Proof.
  induction ws as [|x ws IH]; intros i lis H; cbn [warning_items] in H.
  - injection H as <-. reflexivity.
  - unfold warning_item, obind in H.
    destruct (render_child eng x) as [c|e] eqn:Hc; [|discriminate H].
    destruct (warning_items eng (S i) ws) as [rest|e] eqn:Hrest; [|discriminate H].
    injection H as <-. cbn [flat_map handlers_of app].
    rewrite (render_child_handlers _ _ Hc), (IH _ _ Hrest). reflexivity.
Qed.

Lemma warning_items_strings (ws : list string) :
  forall i, exists lis,
    warning_items eng i (map VStr ws) = Normal lis /\
    flat_map visible_text lis = nonempty ws.
Proof.
  induction ws as [|x ws IH]; intros i.
  - exists []. split; reflexivity.
  - destruct (IH (S i)) as (rest & Hrest & Hvis).
    cbn [map warning_items]. unfold warning_item, obind, render_child.
    cbn [child_texts]. rewrite Hrest. eexists. split; [reflexivity|].
    cbn [flat_map visible_text]. rewrite Hvis.
    unfold nonempty. cbn [filter].
    destruct (x =? "")%string; reflexivity.
Qed.

Lemma and_then_handlers (v : value) (children : outcome (list vnode)) (l : list vnode) :
  (forall l', children = Normal l' -> flat_map handlers_of l' = []) ->
  and_then eng v children = Normal l -> flat_map handlers_of l = [].
Proof.
  intros Hc. unfold and_then. destruct (truthy v); [apply Hc | apply render_child_handlers].
Qed.

Lemma system_info_block_handlers (d : value) (l : list vnode) :
  system_info_block eng d = Normal l -> flat_map handlers_of l = [].
Proof.
  unfold system_info_block, obind.
  destruct (get_prop eng d "diagnostics") as [diagnostics|e]; [|discriminate].
  destruct (get_prop eng diagnostics "system_info") as [info|e]; [|discriminate].
  destruct (info_rows eng (if truthy info then object_entries info else []))
    as [rows|e] eqn:Hrows; [|discriminate].
  intros H. injection H as <-.
  cbn [flat_map handlers_of app]. rewrite (info_rows_handlers _ _ Hrows). reflexivity.
Qed.

Lemma warnings_list_handlers (items : list value) (l : list vnode) :
  warnings_list eng items = Normal l -> flat_map handlers_of l = [].
Proof.
  unfold warnings_list, obind.
  destruct (warning_items eng 0 items) as [lis|e] eqn:Hlis; [|discriminate].
  intros H. injection H as <-.
  cbn [flat_map handlers_of app]. rewrite (warning_items_handlers _ _ _ Hlis). reflexivity.
Qed.

Lemma analysis_view_handlers (analysis : value) (l : list vnode) :
  analysis_view eng analysis = Normal l -> flat_map handlers_of l = [].
Proof.
  unfold analysis_view, obind.
  destruct (get_prop eng analysis "status") as [status|e]; [|discriminate].
  destruct (get_prop eng analysis "warnings") as [warnings|e]; [|discriminate].
  match goal with
  | |- context [match ?o with Normal _ => _ | Throw _ => _ end] =>
      destruct o as [len|e]; [|discriminate]
  end.
  destruct (gt_zero eng len) as [positive|e]; [|discriminate].
  assert (Hview : forall items : option (list value),
             match render_child eng status with
             | Normal status_text =>
                 match match items with
                       | Some l0 => warnings_list eng l0
                       | None => Normal []
                       end with
                 | Normal ws =>
                     Normal
                       [Elem "div" [] None
                          [Elem "h3" [("className", "font-medium mb-2")] None
                             [Text "Analysis"];
                           Elem "div" [("className", "text-sm")] None
                             (Elem "div" [] None (Text "Status: " :: status_text) :: ws)]]
                 | Throw e => Throw e
                 end
             | Throw e => Throw e
             end = Normal l -> flat_map handlers_of l = []).
  { intros items.
    destruct (render_child eng status) as [status_text|e] eqn:Hst; [|discriminate].
    destruct items as [l0|].
    - destruct (warnings_list eng l0) as [ws|e] eqn:Hws; [|discriminate].
      intros H. injection H as <-. cbn [flat_map handlers_of app].
      rewrite (render_child_handlers _ _ Hst), (warnings_list_handlers _ _ Hws).
      reflexivity.
    - intros H. injection H as <-. cbn [flat_map handlers_of app].
      rewrite (render_child_handlers _ _ Hst). reflexivity. }
  destruct positive.
  - destruct (warnings_map eng warnings) as [mapped|e]; [|discriminate].
    exact (Hview (Some mapped)).
  - exact (Hview None).
Qed.

Lemma analysis_block_handlers (d : value) (l : list vnode) :
  analysis_block eng d = Normal l -> flat_map handlers_of l = [].
Proof.
  unfold analysis_block, obind.
  destruct (get_prop eng d "analysis") as [analysis|e]; [|discriminate].
  apply and_then_handlers. intros l'. apply analysis_view_handlers.
Qed.

(** The diagnostics card carries no handler, whatever the data. *)
Lemma diagnostics_card_handlers (d : value) (tree : vnode) :
  diagnostics_card eng d = Normal tree -> handlers_of tree = [].
Proof.
  unfold diagnostics_card, obind.
  match goal with
  | |- context [match ?c with Normal _ => _ | Throw _ => _ end] =>
      destruct c as [content|e] eqn:Hcontent; [|discriminate]
  end.
  intros H. injection H as <-. cbn [flat_map handlers_of app].
  rewrite app_nil_r. revert Hcontent. apply and_then_handlers. intros l'.
  destruct (system_info_block eng d) as [info|e] eqn:Hinfo; [|discriminate].
  destruct (analysis_block eng d) as [analysis|e] eqn:Han; [|discriminate].
  intros H. injection H as <-. cbn [flat_map handlers_of app].
  rewrite app_nil_r, flat_map_app.
  rewrite (system_info_block_handlers _ _ Hinfo), (analysis_block_handlers _ _ Han).
  reflexivity.
Qed.

(** The card of a body with the parts [si] and [aentries], once the
    rows are made: what is left is the analysis. *)
Lemma diagnostics_card_parts (d : value) (si aentries : list (string * value))
    (rows : list vnode) :
  body_parts d si aentries ->
  info_rows eng si = Normal rows ->
  diagnostics_card eng d =
  (analysis <- analysis_view eng (VObj aentries) ;;;
   Normal
     (Elem "Card" [("className", "w-full max-w-4xl")] None
        [Elem "CardHeader" [] None [Elem "CardTitle" [] None [Text "System Diagnostics"]];
         Elem "CardContent" [] None
           [Elem "div" [("className", "space-y-4")] None
              (Elem "div" [] None
                 [Elem "h3" [("className", "font-medium mb-2")] None [Text "System Info"];
                  Elem "div" [("className", "grid grid-cols-2 gap-2")] None rows]
               :: analysis)]])).
Proof.
  intros (entries & dentries & -> & Hd & Hsi & Ha) Hrows.
  unfold diagnostics_card, and_then, system_info_block, analysis_block, obind.
  cbn [truthy get_prop]. rewrite Hd. cbn [get_prop]. rewrite Hsi, Ha.
  cbn [truthy object_entries]. rewrite Hrows.
  destruct (analysis_view eng (VObj aentries)); reflexivity.
Qed.

(** The card of a body whose rows cannot be made. *)
Lemma diagnostics_card_rows_throw (d : value) (si aentries : list (string * value))
    (e : exn) :
  body_parts d si aentries ->
  info_rows eng si = Throw e ->
  diagnostics_card eng d = Throw e.
Proof.
  intros (entries & dentries & -> & Hd & Hsi & Ha) Hrows.
  unfold diagnostics_card, and_then, system_info_block, obind.
  cbn [truthy get_prop]. rewrite Hd. cbn [get_prop]. rewrite Hsi.
  cbn [truthy object_entries]. rewrite Hrows. reflexivity.
Qed.

Lemma status_text_visible (status : string) :
  flat_map visible_text (map Text (if (status =? "")%string then [] else [status]))
  = nonempty [status].
Proof. unfold nonempty. cbn [filter]. destruct (status =? "")%string; reflexivity. Qed.

(** The analysis of a body of the documented shape. *)
Lemma analysis_view_documented (aentries : list (string * value))
    (status : string) (ws : list string) :
  lookup "status" aentries = Some (VStr status) ->
  lookup "warnings" aentries = Some (VArr (map VStr ws)) ->
  exists nodes,
    analysis_view eng (VObj aentries) = Normal nodes /\
    flat_map visible_text nodes =
      ["Analysis"; "Status: "] ++ nonempty [status] ++
      match ws with
      | [] => []
      | _ :: _ => "Warnings:" :: nonempty ws
      end.
Proof.
  intros Hst Hws. unfold analysis_view.
  cbn [get_prop]. rewrite Hst, Hws. cbn [obind get_prop String.eqb Ascii.eqb Bool.eqb].
  rewrite length_map, gt_zero_length. cbn [obind render_child child_texts].
  destruct ws as [|x ws].
  - cbn [List.length Nat.eqb negb]. eexists. split; [reflexivity|].
    cbn [visible_text flat_map app]. rewrite !app_nil_r, status_text_visible.
    reflexivity.
  - cbn [List.length Nat.eqb negb warnings_map obind]. unfold warnings_list, obind.
    destruct (warning_items_strings (x :: ws) 0) as (lis & -> & Hvis).
    eexists. split; [reflexivity|].
    cbn [visible_text flat_map app]. rewrite !app_nil_r, status_text_visible, Hvis.
    rewrite <- ?app_assoc. reflexivity.
Qed.

Lemma diagnostics_card_documented (d : value) (si : list (string * value))
    (strs : list string) (status : string) (ws : list string) :
  documented d si status ws ->
  stringified eng si strs ->
  exists tree,
    (forall d', documented d' si status ws -> diagnostics_card eng d' = Normal tree) /\
    visible_text tree =
      ["System Diagnostics"; "System Info"] ++ rows_text si strs ++
      ["Analysis"; "Status: "] ++ nonempty [status] ++
      match ws with
      | [] => []
      | _ :: _ => "Warnings:" :: nonempty ws
      end.
Proof.
  intros (aentries & Hparts & Hst & Hws) Hstr.
  destruct (info_rows_stringified si strs Hstr) as (rows & Hrows & Hrvis).
  destruct (analysis_view_documented aentries status ws Hst Hws) as (nodes & Hnodes & Hnvis).
  eexists. split.
  - intros d' (aentries' & Hparts' & Hst' & Hws').
    destruct (analysis_view_documented aentries' status ws Hst' Hws')
      as (nodes' & Hnodes' & _).
    rewrite (diagnostics_card_parts d' si aentries' rows Hparts' Hrows), Hnodes'.
    cbn [obind]. f_equal. f_equal. f_equal. f_equal. f_equal. f_equal. f_equal.
    unfold analysis_view in Hnodes, Hnodes'.
    cbn [get_prop] in Hnodes, Hnodes'. rewrite Hst, Hws in Hnodes.
    rewrite Hst', Hws' in Hnodes'. rewrite Hnodes in Hnodes'.
    injection Hnodes' as <-. reflexivity.
  - cbn [visible_text flat_map app]. rewrite !app_nil_r, Hrvis, Hnvis.
    rewrite <- ?app_assoc. reflexivity.
Qed.

End Rendering.

(** ** The monitor on the page *)

Section Monitor.

Variable eng : engine.
Variable net : remote.

(** C5. After a successful poll whose body has the documented shape
    (a [diagnostics.system_info] object, an [analysis] with a string
    [status] and a list of string [warnings], in any order and beside
    any other field) and for whose [system_info] values [String(value)]
    is defined, [SystemMonitor] shows, in this order: every key and
    value of [system_info], the status, and the warnings in the order
    received under a 'Warnings:' heading, which is there exactly when
    the list is non-empty.  Every body with the same [system_info],
    status and warnings gives the same tree, whatever
    [diagnostics.metrics] or any other field holds: they are neither
    read nor shown. *)
Theorem C5_renders_body (w : world) (r : response) (d : value)
    (si : list (string * value)) (strs : list string)
    (status : string) (ws : list string) :
  net (List.length (requests w)) api_current = Resolved r ->
  ok r = true ->
  body r = Parsed d ->
  documented d si status ws ->
  stringified eng si strs ->
  exists tree,
    SystemMonitor eng (st (snd (fetchData eng net w))) = Normal tree /\
    visible_text tree =
      ["System Diagnostics"; "System Info"] ++ rows_text si strs ++
      ["Analysis"; "Status: "] ++ nonempty [status] ++
      match ws with
      | [] => []
      | _ :: _ => "Warnings:" :: nonempty ws
      end /\
    forall d',
      documented d' si status ws ->
      SystemMonitor eng (mkState d' false None) = Normal tree.
Proof.
  intros Hnet Hok Hbody Hdoc Hstr.
  rewrite fetchData_runs, Hnet. cbn [snd st]. unfold settled. rewrite Hok, Hbody.
  destruct (diagnostics_card_documented eng d si strs status ws Hdoc Hstr)
    as (tree & Htree & Hvis).
  exists tree. unfold SystemMonitor, error_shown. cbn [loading error data].
  split; [exact (Htree d Hdoc)|]. split; [exact Hvis|].
  intros d' Hdoc'. exact (Htree d' Hdoc').
Qed.

Lemma includes_nonempty (e : string) :
  includes "Administrative privileges" e = true -> e <> "".
Proof. intros H ->. discriminate H. Qed.

(** The only handler within reach is that of the retry button, and it
    is within reach exactly in the error view of an admin error. *)
Lemma clickable_spec (s : state) (h : handler) :
  In h (clickable eng s) <->
  loading s = false /\
  exists e, error s = Some e /\ includes "Administrative privileges" e = true.
Proof.
  unfold clickable, SystemMonitor, error_shown.
  destruct (loading s).
  { cbn. split; [intros [] | intros [H _]; discriminate H]. }
  destruct (error s) as [e|].
  2:{ split.
      - destruct (diagnostics_card eng (data s)) as [tree|x] eqn:Hcard; [|intros []].
        rewrite (diagnostics_card_handlers eng _ _ Hcard). intros [].
      - intros [_ (e & He & _)]. discriminate He. }
  destruct (String.eqb_spec e "") as [->|Hne].
  { split.
    - destruct (diagnostics_card eng (data s)) as [tree|x] eqn:Hcard; [|intros []].
      rewrite (diagnostics_card_handlers eng _ _ Hcard). intros [].
    - intros [_ (e & He & Hinc)]. injection He as <-. discriminate Hinc. }
  unfold error_alert. cbn [handlers_of flat_map app].
  rewrite app_nil_r, flat_map_app, text_handlers. cbn [app].
  destruct (includes "Administrative privileges" e) eqn:Hinc.
  - split.
    + intros _. split; [reflexivity|]. exists e. split; [reflexivity | exact Hinc].
    + intros _. destruct h. cbn. left. reflexivity.
  - split.
    + intros [].
    + intros [_ (e' & He & Hinc')]. injection He as <-.
      rewrite Hinc in Hinc'. discriminate Hinc'.
Qed.

Lemma button_shown_spec (s : state) :
  button_shown eng s <->
  loading s = false /\
  exists e, error s = Some e /\ includes "Administrative privileges" e = true.
Proof.
  split.
  - intros (tree & Htree & Hin).
    apply (clickable_spec s HandleRetryWithAdmin).
    unfold clickable. rewrite Htree.
    apply (descendant_handlers tree retry_button); [exact Hin|].
    cbn. left. reflexivity.
  - intros (Hload & e & He & Hinc).
    exists (error_alert e). split.
    + unfold SystemMonitor, error_shown. rewrite Hload, He.
      destruct (String.eqb_spec e "") as [E|_]; [|reflexivity].
      destruct (includes_nonempty e Hinc E).
    + unfold error_alert. rewrite Hinc.
      cbn [descendants flat_map]. right. apply in_or_app. left. right.
      rewrite flat_map_app. apply in_or_app. right. cbn. left. reflexivity.
Qed.

Lemma count_url_poll (log : list (Z * string)) (t : Z) :
  count_url retry_with_admin (log ++ [(t, api_current)]) = count_url retry_with_admin log.
Proof.
  unfold count_url. rewrite filter_app, length_app. cbn. lia.
Qed.

Lemma fire_count (t : timer) (w : world) :
  count_url retry_with_admin (requests (snd (fire eng net t w))) =
  count_url retry_with_admin (requests w).
Proof.
  unfold fire.
  destruct ((due t =? clock w) && existsb (fun t' => (tid t' =? tid t)%nat) (timers w));
    [|reflexivity].
  cbn [snd]. destruct (handler_of t). unfold run_callback.
  rewrite fetchData_runs. cbn [snd requests]. apply count_url_poll.
Qed.

Lemma fire_all_count (ts : list timer) (w : world) :
  count_url retry_with_admin (requests (snd (fire_all eng net ts w))) =
  count_url retry_with_admin (requests w).
Proof.
  revert w. induction ts as [|t ts IH]; intros w; [reflexivity|].
  cbn [fire_all]. unfold bind.
  pose proof (fire_normal eng net t w) as Hn. pose proof (fire_count t w) as Hc.
  destruct (fire eng net t w) as [[[]|e] w1]; cbn [fst snd] in *; [|discriminate Hn].
  rewrite IH. exact Hc.
Qed.

(** Timers only ever poll. *)
Lemma advance_count (ms : nat) (w : world) :
  count_url retry_with_admin (requests (snd (advance eng net ms w))) =
  count_url retry_with_admin (requests w).
Proof.
  induction ms as [|ms IH]; [reflexivity|].
  rewrite advance_S. unfold tick. rewrite fire_all_count. exact IH.
Qed.

(** C7, as amended. The 'Retry with Admin Privileges' button is on
    screen if and only if loading is false and the error is a string
    that contains 'Administrative privileges'; and an event of the page
    that sends a request to /retry_with_admin is a click on that button
    while it is on screen. *)
Theorem C7_retry_button :
  (forall s : state,
      button_shown eng s <->
      loading s = false /\
      exists e, error s = Some e /\ includes "Administrative privileges" e = true) /\
  (forall (p : page) (ev : event),
      count_url retry_with_admin (requests (page_world (step eng net p ev))) <>
      count_url retry_with_admin (requests (page_world p)) ->
      ev = Click HandleRetryWithAdmin /\ button_shown eng (st (page_world p))).
Proof.
  split; [exact button_shown_spec|].
  intros p ev Hsent. destruct ev as [|ms|h|]; cbn [step] in Hsent.
  - destruct (mounted p); [destruct (Hsent eq_refl)|].
    rewrite mount_effect_runs in Hsent. cbn [page_world requests] in Hsent.
    destruct Hsent. apply count_url_poll.
  - cbn [page_world] in Hsent. destruct Hsent. apply advance_count.
  - destruct (mounted p); [|destruct (Hsent eq_refl)].
    destruct (existsb (handler_eqb h) (clickable eng (st (page_world p)))) eqn:Hc;
      [|destruct (Hsent eq_refl)].
    apply existsb_exists in Hc. destruct Hc as (h' & Hin & _).
    destruct h. split; [reflexivity|].
    apply button_shown_spec. exact (proj1 (clickable_spec _ _) Hin).
  - destruct (mounted p); destruct (Hsent eq_refl).
Qed.

End Monitor.

Lemma C5_renders_body_witness :
  let net := constant_remote (Resolved (mkResponse true 200 (Parsed sorted_body))) in
  exists tree,
    SystemMonitor sample_engine (st (snd (fetchData sample_engine net fresh_world)))
    = Normal tree /\
    visible_text tree =
      ["System Diagnostics"; "System Info"; "os"; ": "; "Linux";
       "hostname"; ": "; "sentinel"; "Analysis"; "Status: "; "warning";
       "Warnings:"; "CPU usage is high: 95%"] /\
    forall d',
      documented d' [("os", VStr "Linux"); ("hostname", VStr "sentinel")]
                 "warning" ["CPU usage is high: 95%"] ->
      SystemMonitor sample_engine (mkState d' false None) = Normal tree.
Proof.
  apply (C5_renders_body sample_engine
           (constant_remote (Resolved (mkResponse true 200 (Parsed sorted_body))))
           fresh_world (mkResponse true 200 (Parsed sorted_body)) sorted_body
           [("os", VStr "Linux"); ("hostname", VStr "sentinel")] ["Linux"; "sentinel"]
           "warning" ["CPU usage is high: 95%"]).
  - reflexivity.
  - reflexivity.
  - reflexivity.
  - exists [("status", VStr "warning");
            ("warnings", VArr [VStr "CPU usage is high: 95%"])].
    split; [|split; reflexivity].
    eexists. eexists. split; [reflexivity|]. split; [reflexivity|].
    split; reflexivity.
  - repeat constructor.
Defined.

(** C7 without its amendment fails: while a poll is in flight the
    error still holds the admin message, and the spinner is shown
    instead of the button. *)
Lemma C7_counterexample :
  let s := st repolling_world in
  (exists e, error s = Some e /\ includes "Administrative privileges" e = true) /\
  SystemMonitor sample_engine s = Normal spinner /\
  ~ button_shown sample_engine s.
Proof.
  split; [|split].
  - exists admin_required. split; reflexivity.
  - reflexivity.
  - intros H. apply button_shown_spec in H. destruct H as [H _]. discriminate H.
Qed.

(** ** The static panels *)

Lemma descendants_self (n : vnode) : In n (descendants n).
Proof. destruct n; left; reflexivity. Qed.

Lemma descendants_child (tag : string) (props : list (string * string))
    (h : option handler) (children : list vnode) (c n : vnode) :
  In c children -> In n (descendants c) -> In n (descendants (Elem tag props h children)).
Proof.
  intros Hc Hn. cbn [descendants]. right. apply in_flat_map. exists c. auto.
Qed.

Create HintDb tree.
#[local] Hint Resolve descendants_self descendants_child in_eq in_cons : tree.

Lemma gt_spec (a b : Q) : gt a b = true <-> (b < a)%Q.
Proof.
  unfold gt. rewrite negb_true_iff. split.
  - intros H. apply Qnot_le_lt. intros Hle.
    apply Qle_bool_iff in Hle. congruence.
  - intros H. destruct (Qle_bool a b) eqn:E; [|reflexivity].
    apply Qle_bool_iff in E. destruct (Qlt_not_le _ _ H E).
Qed.

Section Panels.

Variable eng : engine.

Lemma disk_bar_in_rows (d : disk_data) (ds : list disk_data) :
  In d ds ->
  forall i, exists row, In row (disk_rows eng i ds) /\ In (disk_bar eng d) (descendants row).
Proof.
  induction ds as [|x ds IH]; intros Hd i; [destruct Hd|].
  destruct Hd as [->|Hd].
  - exists (disk_row eng i d). split; [left; reflexivity|].
    unfold disk_row. eauto 10 with tree.
  - destruct (IH Hd (S i)) as (row & Hrow & Hbar).
    exists row. split; [right; exact Hrow | exact Hbar].
Qed.

(** C10. In the static panels the CPU badge, the memory badge and every
    disk bar are red if and only if the value shown is above 80.  The
    panels take no configuration: a CPU reading of 85 is red although
    it is within the configured [cpu_usage_max] of 90. *)
Theorem C10_red_above_80 (sd : system_data) (l : list alert_entry) (monitor : vnode) :
  let page := SystemMonitorDashboard eng sd l monitor in
  (In (cpu_badge eng sd) (descendants page) /\
   (highlighted (cpu_badge eng sd) = true <-> (80 < cpu_usage (cpu sd))%Q)) /\
  (In (memory_badge eng sd) (descendants page) /\
   (highlighted (memory_badge eng sd) = true <-> (80 < used (memory sd))%Q)) /\
  (forall d, In d (disk sd) ->
     In (disk_bar eng d) (descendants page) /\
     (highlighted (disk_bar eng d) = true <-> (80 < disk_usage d)%Q)) /\
  ((cpu_usage (cpu warm_data) <= cpu_usage_max env_thresholds)%Q /\
   highlighted (cpu_badge eng warm_data) = true).
Proof.
  intros page. subst page. repeat split.
  - unfold SystemMonitorDashboard, cpu_panel, panel, panel_header. eauto 20 with tree.
  - unfold highlighted, cpu_badge. cbn [class_name find fst snd String.eqb Ascii.eqb Bool.eqb].
    intros H. apply gt_spec. destruct (gt (cpu_usage (cpu sd)) 80); [reflexivity|discriminate H].
  - intros H. apply gt_spec in H.
    unfold highlighted, cpu_badge. cbn [class_name find fst snd String.eqb Ascii.eqb Bool.eqb].
    rewrite H. reflexivity.
  - unfold SystemMonitorDashboard, memory_panel, panel, panel_header. eauto 20 with tree.
  - unfold highlighted, memory_badge. cbn [class_name find fst snd String.eqb Ascii.eqb Bool.eqb].
    intros H. apply gt_spec. destruct (gt (used (memory sd)) 80); [reflexivity|discriminate H].
  - intros H. apply gt_spec in H.
    unfold highlighted, memory_badge. cbn [class_name find fst snd String.eqb Ascii.eqb Bool.eqb].
    rewrite H. reflexivity.
  - destruct (disk_bar_in_rows d (disk sd) H 0%nat) as (row & Hrow & Hbar).
    unfold SystemMonitorDashboard, disk_panel, panel.
    eapply descendants_child; [left; reflexivity|].
    eapply descendants_child; [right; right; left; reflexivity|].
    eapply descendants_child; [left; reflexivity|].
    eapply descendants_child; [right; exact Hrow | exact Hbar].
  - unfold highlighted, disk_bar. cbn [class_name find fst snd String.eqb Ascii.eqb Bool.eqb].
    intros Hred. apply gt_spec. destruct (gt (disk_usage d) 80); [reflexivity|discriminate Hred].
  - intros Hgt. apply gt_spec in Hgt.
    unfold highlighted, disk_bar. cbn [class_name find fst snd String.eqb Ascii.eqb Bool.eqb].
    rewrite Hgt. reflexivity.
  - cbn. unfold Qle. cbn. lia.
Qed.

End Panels.

(** With the readings the source hard-codes (45, 65, 75 and 40) nothing
    is red. *)
Example hardcoded_readings_green :
  highlighted (cpu_badge sample_engine systemData) = false /\
  highlighted (memory_badge sample_engine systemData) = false /\
  forallb (fun d => negb (highlighted (disk_bar sample_engine d))) (disk systemData) = true.
Proof. repeat split. Qed.

(** ** The alert dispatcher *)

Module DispatcherFacts.
Import AlertDispatcher.

Lemma key_eqb_eq (a b : key) : key_eqb a b = true <-> a = b.
Proof.
  destruct a as [ca sa], b as [cb sb]. unfold key_eqb. cbn [fst snd].
  split.
  - intros H. apply andb_true_iff in H. destruct H as [Hc Hs].
    destruct ca, cb; try discriminate Hc; destruct sa, sb; try discriminate Hs; reflexivity.
  - intros H. injection H as <- <-. destruct ca, sa; reflexivity.
Qed.

Lemma key_eqb_refl (k : key) : key_eqb k k = true.
Proof. apply key_eqb_eq. reflexivity. Qed.

Lemma key_eqb_neq (a b : key) : a <> b -> key_eqb a b = false.
Proof.
  intros H. destruct (key_eqb a b) eqn:E; [|reflexivity].
  apply key_eqb_eq in E. contradiction.
Qed.

Lemma filter_none {A : Type} (f : A -> bool) (l : list A) :
  (forall x, In x l -> f x = false) -> filter f l = [].
Proof.
  induction l as [|x l IH]; intros H; [reflexivity|].
  cbn [filter]. rewrite (H x (or_introl eq_refl)). apply IH.
  intros y Hy. apply H. right. exact Hy.
Qed.

Lemma records_for_app (c : channel) (k : key) (a b : list AlertRecord) :
  records_for c k (a ++ b) = records_for c k a ++ records_for c k b.
Proof. apply filter_app. Qed.

Section Dispatch.

Variable cfg : channels.
Variable previous : option AnalysisResult.





(** One breach is sent at most once on a channel. *)
Lemma channel_records (now : Z) (b : breach) (c : channel) (k : key) :
  (List.length
     (records_for c k
        (map (fun c' => mkAlertRecord c' (breach_text b) (key_of b) now)
             (enabled_channels cfg))) <= 1)%nat.
Proof.
  unfold records_for, enabled_channels.
  destruct (email_enabled cfg), (webhook_enabled cfg), c;
    cbn [app map filter record_channel dedup_key channel_eqb andb];
    destruct (key_eqb (key_of b) k); cbn [List.length]; lia.
Qed.

Lemma other_key_records (now : Z) (b : breach) (c : channel) (k : key)
    (cs : list channel) :
  key_eqb (key_of b) k = false ->
  records_for c k (map (fun c' => mkAlertRecord c' (breach_text b) (key_of b) now) cs) = [].
Proof.
  intros Hk. apply filter_none. intros a Ha.
  apply in_map_iff in Ha. destruct Ha as (c' & <- & _).
  cbn [dedup_key]. rewrite Hk. apply andb_false_r.
Qed.

Lemma new_breaches_records (now : Z) (c : channel) (k : key) (bs : list breach) :
  forall seen,
    let records :=
      records_for c k
        (flat_map (fun b => map (fun c' => mkAlertRecord c' (breach_text b) (key_of b) now)
                                (enabled_channels cfg))
                  (new_breaches previous seen bs)) in
    (List.length records <= 1)%nat /\
    (existsb (key_eqb k) seen = true -> records = []).
Proof.
  induction bs as [|x bs IH]; intros seen; cbn zeta.
  { cbn. split; [lia | reflexivity]. }
  cbn [new_breaches].
  destruct (was_breached previous (key_of x)) eqn:Hprev; cbn [orb]; [exact (IH seen)|].
  destruct (existsb (key_eqb (key_of x)) seen) eqn:Hseen; [exact (IH seen)|].
  cbn [flat_map]. rewrite records_for_app.
  destruct (IH (key_of x :: seen)) as [Hlen Hnil]. cbn zeta in Hlen, Hnil.
  destruct (key_eqb (key_of x) k) eqn:Hk.
  - apply key_eqb_eq in Hk. subst k.
    rewrite Hnil by (cbn [existsb]; rewrite key_eqb_refl; reflexivity).
    rewrite app_nil_r. split; [apply channel_records|].
    intros H. rewrite H in Hseen. discriminate Hseen.
  - rewrite (other_key_records now x c k _ Hk). cbn [app]. split; [exact Hlen|].
    intros H. apply Hnil. cbn [existsb]. rewrite H. apply orb_true_r.
Qed.

Lemma dispatch_at_most_once (now : Z) (result : AnalysisResult) (c : channel) (k : key) :
  (List.length (records_for c k (dispatch cfg now result previous)) <= 1)%nat.
Proof. exact (proj1 (new_breaches_records now c k (warnings result) [])). Qed.

Lemma new_breaches_finds (k : key) (bs : list breach) :
  forall seen,
    was_breached previous k = false ->
    existsb (key_eqb k) seen = false ->
    (exists b, In b bs /\ key_of b = k) ->
    exists b, In b (new_breaches previous seen bs) /\ key_of b = k.
Proof.
  induction bs as [|x bs IH]; intros seen Hprev Hseen (b & Hb & Hk); [destruct Hb|].
  cbn [new_breaches].
  destruct (key_eqb (key_of x) k) eqn:Hx.
  - apply key_eqb_eq in Hx. rewrite Hx, Hprev, Hseen. cbn [orb].
    exists x. split; [left; reflexivity | exact Hx].
  - assert (Hrest : exists b, In b bs /\ key_of b = k).
    { destruct Hb as [->|Hb]; [|exists b; auto].
      rewrite Hk, key_eqb_refl in Hx. discriminate Hx. }
    destruct (was_breached previous (key_of x) || existsb (key_eqb (key_of x)) seen).
    + exact (IH seen Hprev Hseen Hrest).
    + destruct (IH (key_of x :: seen) Hprev) as (b' & Hb' & Hk'); [|exact Hrest|].
      * cbn [existsb]. rewrite Hseen, orb_false_r. apply key_eqb_neq.
        intros E. rewrite <- E, key_eqb_refl in Hx. discriminate Hx.
      * exists b'. split; [right; exact Hb' | exact Hk'].
Qed.

(** A breach that is new relative to [previous] is sent, once, on every
    enabled channel. *)
Lemma dispatch_fires_on_new_breach (now : Z) (result : AnalysisResult)
    (c : channel) (k : key) :
  breached result k = true ->
  was_breached previous k = false ->
  In c (enabled_channels cfg) ->
  List.length (records_for c k (dispatch cfg now result previous)) = 1%nat.
Proof.
  intros Hnow Hprev Hc.
  pose proof (dispatch_at_most_once now result c k) as Hle.
  apply existsb_exists in Hnow. destruct Hnow as (b & Hb & Hk).
  apply key_eqb_eq in Hk.
  destruct (new_breaches_finds k (warnings result) [] Hprev eq_refl
              (ex_intro _ b (conj Hb Hk))) as (b' & Hb' & Hk').
  assert (Hin : In (mkAlertRecord c (breach_text b') (key_of b') now)
                   (records_for c k (dispatch cfg now result previous))).
  { apply filter_In. split.
    - unfold dispatch. apply in_flat_map. exists b'. split; [exact Hb'|].
      apply in_map_iff. exists c. split; [reflexivity | exact Hc].
    - cbn [record_channel dedup_key]. rewrite Hk', key_eqb_refl.
      destruct c; reflexivity. }
  destruct (records_for c k (dispatch cfg now result previous)) as [|a l];
    [destruct Hin|].
  cbn [List.length] in *. lia.
Qed.

End Dispatch.







End DispatcherFacts.



(** Scenario E on the model: one record per channel at the first breach,
    nothing while it holds, one more per channel when it comes back. *)
Example scenario_E :
  map (fun a => (AlertDispatcher.record_channel a, AlertDispatcher.sent_at a))
      (AlertDispatcher.run_cycles both_channels None
         [cpu_breach 5; cpu_breach 10; cpu_breach 15; all_clear 20; cpu_breach 25])
  = [(AlertDispatcher.Email, 5); (AlertDispatcher.Webhook, 5);
     (AlertDispatcher.Email, 25); (AlertDispatcher.Webhook, 25)].
Proof. reflexivity. Qed.

(** * Further properties *)

(** ** Polls one after the other *)

Section MorePolls.

Variable eng : engine.
Variable net : remote.

Lemma settled_outcome (s : state) (o : fetch_outcome) :
  loading (settled eng s o) = false /\
  match success o with
  | Some v => data (settled eng s o) = v /\ error (settled eng s o) = None
  | None => data (settled eng s o) = data s /\ error (settled eng s o) <> None
  end.
Proof.
  unfold settled, success. destruct o as [r|msg].
  - destruct (ok r); [destruct (body r)|]; cbn [loading data error];
      repeat split; discriminate.
  - cbn [loading data error]. repeat split. discriminate.
Qed.

(** [fetchData_resume] always completes normally: it sends nothing and
    leaves the component in the [settled] state of the answer. *)
Lemma fetchData_resume_runs (n : nat) (w : world) :
  fetchData_resume eng net n w =
  (Normal tt,
   mkWorld (settled eng (st w) (net n api_current))
           (requests w) (clock w) (timers w) (next_timer w)).
Proof.
  unfold settled, fetchData_resume.
  destruct (net n api_current) as [[o s b]|msg] eqn:Hnet;
    cbv beta iota zeta delta
      [fetchData_response needs_admin finally try_catch bind await_response json lift
       throw ret setLoading setData setError with_state];
    rewrite Hnet;
    cbn [st requests clock timers next_timer data loading error ok status body negb
         fst snd]; [|reflexivity].
  destruct o; cbn [negb].
  - destruct b; reflexivity.
  - destruct (s =? 401); [reflexivity|].
    destruct (s =? 500); [|reflexivity].
    destruct b as [v|msg]; [|reflexivity].
    destruct (get_prop eng v "suggest_admin") as [flag|e]; [|reflexivity].
    destruct (truthy flag); reflexivity.
Qed.

Lemma deliver_cons (n : nat) (ns : list nat) (w : world) :
  deliver eng net (n :: ns) w =
  deliver eng net ns
    (mkWorld (settled eng (st w) (net n api_current))
             (requests w) (clock w) (timers w) (next_timer w)).
Proof. cbn [deliver]. unfold bind. rewrite fetchData_resume_runs. reflexivity. Qed.

(** X1. Polls that overlap are settled in the order in which their
    answers arrive, not in the order in which they were sent: once the
    answers to the requests [ns] and then [n] are in, nothing more has
    been sent, loading is false, the error is null exactly when the
    answer that arrived last was a success, and the data is the body of
    the last success to arrive (or what it was before, when none
    did). *)
Theorem X1_last_answer_wins (ns : list nat) (n : nat) (w : world) :
  fst (deliver eng net (ns ++ [n]) w) = Normal tt /\
  requests (snd (deliver eng net (ns ++ [n]) w)) = requests w /\
  loading (st (snd (deliver eng net (ns ++ [n]) w))) = false /\
  data (st (snd (deliver eng net (ns ++ [n]) w))) =
    match last_success net (ns ++ [n]) with
    | Some v => v
    | None => data (st w)
    end /\
  (error (st (snd (deliver eng net (ns ++ [n]) w))) = None <->
   success (net n api_current) <> None).
Proof.
  revert w. induction ns as [|a ns IH]; intros w.
  - cbn [app]. rewrite deliver_cons. cbn [deliver ret fst snd requests st last_success].
    destruct (settled_outcome (st w) (net n api_current)) as [Hl H].
    repeat split; try exact Hl.
    + destruct (success (net n api_current)); exact (proj1 H).
    + intros E. destruct (success (net n api_current)); [discriminate|].
      destruct (proj2 H E).
    + intros E. destruct (success (net n api_current)); [exact (proj2 H)|].
      destruct (E eq_refl).
  - cbn [app]. rewrite deliver_cons.
    destruct (IH (mkWorld (settled eng (st w) (net a api_current))
                          (requests w) (clock w) (timers w) (next_timer w)))
      as (H1 & H2 & H3 & H4 & H5).
    cbn [requests st] in *. repeat split; try assumption; try apply H5.
    rewrite H4. cbn [last_success].
    destruct (last_success net (ns ++ [n])); [reflexivity|].
    destruct (settled_outcome (st w) (net a api_current)) as [_ H].
    destruct (success (net a api_current)); exact (proj1 H).
Qed.

(** X2. The body of a non-ok response is read only when the status is
    500: with any other status the poll ends in the same world whatever
    the body holds, parseable or not. *)
Theorem X2_body_read_only_on_500 (net' : remote) (w : world) (r : response)
    (b' : json_result) :
  net (List.length (requests w)) api_current = Resolved r ->
  net' (List.length (requests w)) api_current = Resolved (mkResponse false (status r) b') ->
  ok r = false ->
  status r <> 500 ->
  fetchData eng net w = fetchData eng net' w.
Proof.
  intros Hnet Hnet' Hok H500.
  rewrite !fetchData_runs, Hnet, Hnet'. unfold settled. rewrite Hok. cbn [ok status body].
  destruct (Z.eqb_spec (status r) 401); [reflexivity|].
  destruct (Z.eqb_spec (status r) 500); [contradiction | reflexivity].
Qed.

(** X3. [suggest_admin] counts only on a 500: after a poll answered
    with any status other than 401 and 500 and a body that parses, ok or
    not, the retry button is not on screen, whatever the body says. *)
Theorem X3_no_button_without_401_or_500 (w : world) (r : response) (v : value) :
  net (List.length (requests w)) api_current = Resolved r ->
  status r <> 401 ->
  status r <> 500 ->
  body r = Parsed v ->
  ~ button_shown eng (st (snd (fetchData eng net w))).
Proof.
  intros Hnet H401 H500 Hbody Hshown.
  apply button_shown_spec in Hshown. destruct Hshown as (_ & e & He & Hinc).
  rewrite fetchData_runs, Hnet in He. cbn [snd st] in He. unfold settled in He.
  rewrite Hbody in He. destruct (ok r); cbn [error] in He; [discriminate He|].
  destruct (Z.eqb_spec (status r) 401); [contradiction|].
  destruct (Z.eqb_spec (status r) 500); [contradiction|].
  apply some_inj in He. subst e. discriminate Hinc.
Qed.

(** X4. When the button is on screen and the escalation request itself
    fails, the error becomes 'Failed to obtain administrative access',
    which does not contain 'Administrative privileges': the alert stays
    and the button is gone. *)
Theorem X4_failed_escalation_hides_button (w : world) (msg : string) :
  button_shown eng (st w) ->
  net (List.length (requests w)) retry_with_admin = Rejected msg ->
  SystemMonitor eng (st (snd (handleRetryWithAdmin eng net w)))
  = Normal (Elem "Alert" [("variant", "destructive"); ("className", "w-full max-w-4xl")] None
              [Elem "AlertDescription" [] None [Text admin_failed]]) /\
  ~ button_shown eng (st (snd (handleRetryWithAdmin eng net w))).
Proof.
  intros Hshown Hnet.
  apply button_shown_spec in Hshown. destruct Hshown as (Hload & _).
  assert (Hst : st (snd (handleRetryWithAdmin eng net w))
                = mkState (data (st w)) false (Some admin_failed)).
  { cbv beta iota zeta delta
      [handleRetryWithAdmin try_catch bind fetch await_response send throw ret
       setError with_state].
    cbn [requests]. rewrite Hnet. cbn [snd st]. rewrite Hload. reflexivity. }
  rewrite Hst. split; [reflexivity|].
  intros H. apply button_shown_spec in H. destruct H as (_ & e & He & Hinc).
  cbn [error] in He. apply some_inj in He. subst e. discriminate Hinc.
Qed.

End MorePolls.

(** Two polls in flight: the first is answered with the data, the second
    'not ready'.  When the answer of the first arrives last, the data is
    shown and the failure of the newer poll is lost. *)
Example late_answer_overwrites :
  let started :=
    snd (fetchData_pending (snd (fetchData_pending fresh_world))) in
  st (snd (deliver sample_engine flaky_remote [1; 0]%nat started))
  = mkState sample_body false None /\
  error (st (snd (deliver sample_engine flaky_remote [0; 1]%nat started)))
  = Some fetch_failed.
Proof. split; reflexivity. Qed.

Lemma X2_body_read_only_on_500_witness :
  fetchData sample_engine (constant_remote (Resolved response_503)) fresh_world =
  fetchData sample_engine
    (constant_remote (Resolved (mkResponse false 503 (Malformed "Unexpected end of JSON input"))))
    fresh_world.
Proof.
  apply (X2_body_read_only_on_500 sample_engine
           (constant_remote (Resolved response_503))
           (constant_remote
              (Resolved (mkResponse false 503 (Malformed "Unexpected end of JSON input"))))
           fresh_world response_503 (Malformed "Unexpected end of JSON input")).
  - reflexivity.
  - reflexivity.
  - reflexivity.
  - cbn. discriminate.
Defined.

Lemma X3_no_button_without_401_or_500_witness :
  ~ button_shown sample_engine
      (st (snd (fetchData sample_engine
                  (constant_remote (Resolved response_200_degraded)) fresh_world))).
Proof.
  apply (X3_no_button_without_401_or_500 sample_engine
           (constant_remote (Resolved response_200_degraded)) fresh_world
           response_200_degraded
           (VObj [("diagnostics", VObj [("system_info", VObj [("os", VStr "Linux")])]);
                  ("suggest_admin", VBool true)])).
  - reflexivity.
  - cbn. discriminate.
  - cbn. discriminate.
  - reflexivity.
Defined.

Lemma X4_failed_escalation_hides_button_witness :
  let net := constant_remote (Rejected "Failed to fetch") in
  SystemMonitor sample_engine
    (st (snd (handleRetryWithAdmin sample_engine net admin_error_world)))
  = Normal (Elem "Alert" [("variant", "destructive"); ("className", "w-full max-w-4xl")] None
              [Elem "AlertDescription" [] None [Text admin_failed]]) /\
  ~ button_shown sample_engine
      (st (snd (handleRetryWithAdmin sample_engine net admin_error_world))).
Proof.
  apply (X4_failed_escalation_hides_button sample_engine
           (constant_remote (Rejected "Failed to fetch")) admin_error_world
           "Failed to fetch").
  - apply button_shown_spec. split; [reflexivity|].
    exists admin_required. split; reflexivity.
  - reflexivity.
Defined.

(** ** The page under any sequence of events *)

Section PageInvariants.

Variable eng : engine.
Variable net : remote.

(** What [handleRetryWithAdmin] can do to the world: change the
    component state and send requests to the two endpoints. *)
Lemma handleRetryWithAdmin_world (w : world) :
  exists s' new,
    snd (handleRetryWithAdmin eng net w) =
    mkWorld s' (requests w ++ new) (clock w) (timers w) (next_timer w) /\
    Forall known_request new.
Proof.
  cbv beta iota zeta delta
    [handleRetryWithAdmin try_catch bind fetch await_response send throw ret
     setError with_state].
  cbn [requests st clock timers next_timer].
  destruct (net (List.length (requests w)) retry_with_admin) as [r|msg].
  - destruct (ok r).
    + rewrite fetchData_runs. cbn [snd requests clock timers next_timer].
      eexists. exists [(clock w, retry_with_admin); (clock w, api_current)].
      rewrite <- app_assoc. split; [reflexivity|].
      apply Forall_cons; [right; reflexivity|].
      apply Forall_cons; [left; reflexivity | apply Forall_nil].
    + cbn [snd]. eexists. exists [(clock w, retry_with_admin)].
      split; [reflexivity|].
      apply Forall_cons; [right; reflexivity | apply Forall_nil].
  - cbn [snd]. eexists. exists [(clock w, retry_with_admin)].
    split; [reflexivity|].
      apply Forall_cons; [right; reflexivity | apply Forall_nil].
Qed.

Lemma tick_one_timer (id : nat) (d : Z) (w : world) :
  timers w = [mkTimer id CbFetchData 5000 d] ->
  exists d', timers (snd (tick eng net w)) = [mkTimer id CbFetchData 5000 d'].
Proof.
  intros Ht. unfold tick. cbn [timers]. rewrite Ht. cbn [fire_all]. unfold bind, fire.
  cbn [clock timers due tid existsb map handler_of]. rewrite Nat.eqb_refl. cbn [orb].
  destruct (d =? clock w + 1); cbn [andb].
  - unfold run_callback. rewrite fetchData_runs. cbn [snd ret timers].
    eexists. reflexivity.
  - cbn [snd ret timers]. eexists. reflexivity.
Qed.

Lemma advance_one_timer (id : nat) (ms : nat) (w : world) :
  forall d, timers w = [mkTimer id CbFetchData 5000 d] ->
  exists d', timers (snd (advance eng net ms w)) = [mkTimer id CbFetchData 5000 d'].
Proof.
  intros d Ht. induction ms as [|ms [d' IH]].
  - exists d. exact Ht.
  - rewrite advance_S. exact (tick_one_timer id d' _ IH).
Qed.

Lemma step_one_interval (p : page) (ev : event) :
  one_interval p -> one_interval (step eng net p ev).
Proof.
  unfold one_interval. intros Hp.
  destruct ev as [|ms|h|]; cbn [step]; destruct (mounted p) as [id|] eqn:Hm;
    try (rewrite Hm; exact Hp).
  - rewrite mount_effect_runs. cbn [mounted page_world timers]. rewrite Hp.
    eexists. reflexivity.
  - cbn [mounted page_world].
    destruct Hp as [d Hd]. exact (advance_one_timer id ms _ d Hd).
  - cbn [mounted page_world].
    exact (proj1 (advance_idle eng net ms _ Hp)).
  - destruct (existsb (handler_eqb h) (clickable eng (st (page_world p))));
      [|rewrite Hm; exact Hp].
    cbn [mounted page_world]. destruct h. cbn [run_handler].
    destruct (handleRetryWithAdmin_world (page_world p)) as (s' & new & -> & _).
    exact Hp.
  - destruct Hp as [d Hd]. cbn [mounted page_world]. unfold cleanup, clearInterval.
    cbn [snd timers]. rewrite Hd. cbn [filter tid]. rewrite Nat.eqb_refl. reflexivity.
Qed.

(** X5. Whatever the user clicks and however long the page runs, the
    component owns exactly one interval while it is mounted and none
    once it is unmounted: polling is never duplicated and never leaks. *)
Theorem X5_one_interval (p : page) (evs : list event) :
  one_interval p -> one_interval (run eng net p evs).
Proof.
  revert p. induction evs as [|ev evs IH]; intros p Hp; [exact Hp|].
  cbn [run fold_left]. apply IH. apply step_one_interval. exact Hp.
Qed.

Lemma fire_known (t : timer) (w : world) :
  Forall known_request (requests w) ->
  Forall known_request (requests (snd (fire eng net t w))).
Proof.
  intros Hw. unfold fire.
  destruct ((due t =? clock w) && existsb (fun t' => (tid t' =? tid t)%nat) (timers w));
    [|exact Hw].
  cbn [snd]. destruct (handler_of t). unfold run_callback.
  rewrite fetchData_runs. cbn [snd requests].
  apply Forall_app. split; [exact Hw|]. apply Forall_cons; [left; reflexivity | apply Forall_nil].
Qed.

Lemma fire_all_known (ts : list timer) (w : world) :
  Forall known_request (requests w) ->
  Forall known_request (requests (snd (fire_all eng net ts w))).
Proof.
  revert w. induction ts as [|t ts IH]; intros w Hw; [exact Hw|].
  cbn [fire_all]. unfold bind.
  pose proof (fire_normal eng net t w) as Hn. pose proof (fire_known t w Hw) as Hk.
  destruct (fire eng net t w) as [[[]|e] w1]; cbn [fst snd] in *; [|discriminate Hn].
  apply IH. exact Hk.
Qed.

Lemma advance_known (ms : nat) (w : world) :
  Forall known_request (requests w) ->
  Forall known_request (requests (snd (advance eng net ms w))).
Proof.
  intros Hw. induction ms as [|ms IH]; [exact Hw|].
  rewrite advance_S. unfold tick. apply fire_all_known. exact IH.
Qed.

Lemma step_known (p : page) (ev : event) :
  Forall known_request (requests (page_world p)) ->
  Forall known_request (requests (page_world (step eng net p ev))).
Proof.
  intros Hp. destruct ev as [|ms|h|]; cbn [step].
  - destruct (mounted p); [exact Hp|].
    rewrite mount_effect_runs. cbn [page_world requests].
    apply Forall_app. split; [exact Hp|]. apply Forall_cons; [left; reflexivity | apply Forall_nil].
  - cbn [page_world]. apply advance_known. exact Hp.
  - destruct (mounted p); [|exact Hp].
    destruct (existsb (handler_eqb h) (clickable eng (st (page_world p)))); [|exact Hp].
    cbn [page_world]. destruct h. cbn [run_handler].
    destruct (handleRetryWithAdmin_world (page_world p)) as (s' & new & -> & Hnew).
    cbn [requests]. apply Forall_app. split; assumption.
  - destruct (mounted p); exact Hp.
Qed.

(** X6. The page talks to two endpoints only: whatever events occur,
    every request it sends goes to /api/current or to
    /retry_with_admin. *)
Theorem X6_two_endpoints (p : page) (evs : list event) :
  Forall known_request (requests (page_world p)) ->
  Forall known_request (requests (page_world (run eng net p evs))).
Proof.
  revert p. induction evs as [|ev evs IH]; intros p Hp; [exact Hp|].
  cbn [run fold_left]. apply IH. apply step_known. exact Hp.
Qed.

Lemma filter_keeps_all {A : Type} (f : A -> bool) (l : list A) :
  (forall x, In x l -> f x = true) -> filter f l = l.
Proof.
  induction l as [|x l IH]; intros H; [reflexivity|].
  cbn [filter]. rewrite (H x (or_introl eq_refl)). f_equal. apply IH.
  intros y Hy. apply H. right. exact Hy.
Qed.

(** X8. Mounting and at once unmounting gives the timers of the page
    back as they were: the cleanup cancels the interval of this
    component and no other timer. *)
Theorem X8_cleanup_cancels_own_interval (w : world) :
  fresh_ids w ->
  fst (mount_effect eng net w) = Normal (next_timer w) /\
  timers (snd (cleanup (next_timer w) (snd (mount_effect eng net w)))) = timers w.
Proof.
  intros Hfresh. rewrite mount_effect_runs. cbn [fst snd]. split; [reflexivity|].
  unfold cleanup, clearInterval. cbn [snd timers].
  rewrite filter_app. cbn [filter tid]. rewrite Nat.eqb_refl. cbn [negb].
  rewrite app_nil_r. apply filter_keeps_all.
  intros t Ht. apply negb_true_iff. apply Nat.eqb_neq.
  pose proof (Hfresh t Ht). lia.
Qed.

End PageInvariants.

Lemma X5_one_interval_witness :
  one_interval
    (run sample_engine flaky_remote (mkPage fresh_world None)
       [Mount; Advance 6000; Click HandleRetryWithAdmin; Mount; Advance 100; Unmount; Unmount]).
Proof.
  apply (X5_one_interval sample_engine flaky_remote (mkPage fresh_world None)).
  reflexivity.
Defined.

Lemma X6_two_endpoints_witness :
  Forall known_request
    (requests (page_world
       (run sample_engine (constant_remote (Resolved response_401))
          (mkPage fresh_world None)
          [Mount; Click HandleRetryWithAdmin; Advance 5000]))).
Proof.
  apply (X6_two_endpoints sample_engine (constant_remote (Resolved response_401))
           (mkPage fresh_world None)).
  constructor.
Defined.

Lemma X8_cleanup_cancels_own_interval_witness :
  fst (mount_effect sample_engine flaky_remote busy_world) = Normal 1%nat /\
  timers (snd (cleanup 1 (snd (mount_effect sample_engine flaky_remote busy_world))))
  = [mkTimer 0 CbFetchData 30000 30000].
Proof.
  apply (X8_cleanup_cancels_own_interval sample_engine flaky_remote busy_world).
  intros t [<-|[]]. cbn. lia.
Defined.

(** ** Bodies that are not of the documented shape *)

Section Shapes.

Variable eng : engine.
Variable net : remote.

Lemma fetchData_success_state (w : world) (r : response) (d : value) :
  net (List.length (requests w)) api_current = Resolved r ->
  ok r = true ->
  body r = Parsed d ->
  st (snd (fetchData eng net w)) = mkState d false None.
Proof.
  intros Hnet Hok Hbody. rewrite fetchData_runs, Hnet. cbn [snd st].
  unfold settled. rewrite Hok, Hbody. reflexivity.
Qed.

(** X9. [data.diagnostics] is read without a guard: after a successful
    poll whose body is truthy but has no [diagnostics] (or a null one),
    rendering throws the TypeError of reading [system_info] of a
    nullish value, and the component shows nothing. *)
Theorem X9_missing_diagnostics_throws (w : world) (r : response) (d v : value) :
  net (List.length (requests w)) api_current = Resolved r ->
  ok r = true ->
  body r = Parsed d ->
  truthy d = true ->
  get_prop eng d "diagnostics" = Normal v ->
  v = VUndefined \/ v = VNull ->
  SystemMonitor eng (st (snd (fetchData eng net w)))
  = Throw (Error (type_error_message eng (ReadOfNullish "system_info"))) /\
  clickable eng (st (snd (fetchData eng net w))) = [].
Proof.
  intros Hnet Hok Hbody Htruthy Hdiag Hv.
  rewrite (fetchData_success_state w r d Hnet Hok Hbody).
  assert (H : SystemMonitor eng (mkState d false None)
              = Throw (Error (type_error_message eng (ReadOfNullish "system_info")))).
  { unfold SystemMonitor, error_shown. cbn [loading error data].
    unfold diagnostics_card, and_then, system_info_block, obind.
    rewrite Htruthy, Hdiag. destruct Hv as [-> | ->]; reflexivity. }
  split; [exact H|]. unfold clickable. rewrite H. reflexivity.
Qed.

(** X10. [system_info] and [analysis] are optional: a body whose
    [diagnostics] is an object without [system_info] and which has no
    [analysis] is rendered, without an exception, as the card with its
    two headings and nothing else. *)
Theorem X10_optional_parts (entries dentries : list (string * value)) :
  lookup "diagnostics" entries = Some (VObj dentries) ->
  lookup "system_info" dentries = None ->
  lookup "analysis" entries = None ->
  exists tree,
    SystemMonitor eng (mkState (VObj entries) false None) = Normal tree /\
    visible_text tree = ["System Diagnostics"; "System Info"].
Proof.
  intros Hd Hsi Ha. unfold SystemMonitor, error_shown. cbn [loading error data].
  unfold diagnostics_card, and_then, system_info_block, analysis_block, obind.
  cbn [truthy get_prop]. rewrite Hd. cbn [get_prop]. rewrite Hsi, Ha.
  cbn [truthy render_child child_texts map app].
  eexists. split; reflexivity.
Qed.

(** The card of a body whose rows are made, in the state a successful
    poll leaves. *)
Lemma monitor_parts (d : value) (si aentries : list (string * value))
    (strs : list string) :
  body_parts d si aentries ->
  stringified eng si strs ->
  exists rows,
    flat_map visible_text rows = rows_text si strs /\
    SystemMonitor eng (mkState d false None) =
    (analysis <- analysis_view eng (VObj aentries) ;;;
     Normal
       (Elem "Card" [("className", "w-full max-w-4xl")] None
          [Elem "CardHeader" [] None
             [Elem "CardTitle" [] None [Text "System Diagnostics"]];
           Elem "CardContent" [] None
             [Elem "div" [("className", "space-y-4")] None
                (Elem "div" [] None
                   [Elem "h3" [("className", "font-medium mb-2")] None
                      [Text "System Info"];
                    Elem "div" [("className", "grid grid-cols-2 gap-2")] None rows]
                 :: analysis)]])).
Proof.
  intros Hparts Hstr.
  destruct (info_rows_stringified eng si strs Hstr) as (rows & Hrows & Hvis).
  exists rows. split; [exact Hvis|].
  unfold SystemMonitor, error_shown. cbn [loading error data].
  exact (diagnostics_card_parts eng d si aentries rows Hparts Hrows).
Qed.

(** X11. [warnings] is optional: for a body with a [system_info]
    object whose values [String()] accepts and an [analysis] with a
    string status and no [warnings], the rows and the status are
    shown, there is no 'Warnings:' heading and nothing throws. *)
Theorem X11_warnings_optional (d : value) (si aentries : list (string * value))
    (strs : list string) (status : string) :
  body_parts d si aentries ->
  stringified eng si strs ->
  lookup "status" aentries = Some (VStr status) ->
  lookup "warnings" aentries = None ->
  exists tree,
    SystemMonitor eng (mkState d false None) = Normal tree /\
    visible_text tree =
      ["System Diagnostics"; "System Info"] ++ rows_text si strs ++
      ["Analysis"; "Status: "] ++ nonempty [status].
Proof.
  intros Hparts Hstr Hst Hws.
  destruct (monitor_parts d si aentries strs Hparts Hstr) as (rows & Hvis & ->).
  unfold analysis_view. cbn [get_prop]. rewrite Hst, Hws.
  cbn [obind gt_zero to_number render_child child_texts].
  eexists. split; [reflexivity|].
  cbn [visible_text flat_map app]. rewrite !app_nil_r, Hvis, status_text_visible.
  rewrite <- ?app_assoc. reflexivity.
Qed.

Lemma string_length_zero (s : string) : String.length s = 0%nat -> s = "".
Proof. destruct s; [reflexivity | discriminate]. Qed.

(** X12. [warnings] is taken to be an array whenever its length is
    positive: for a body whose rows are made and whose
    [analysis.warnings] is a non-empty string, [warnings.map] is not a
    function and [SystemMonitor] throws, whatever the status is. *)
Theorem X12_text_warnings_throw (d : value) (si aentries : list (string * value))
    (strs : list string) (s : string) :
  body_parts d si aentries ->
  stringified eng si strs ->
  lookup "warnings" aentries = Some (VStr s) ->
  s <> "" ->
  SystemMonitor eng (mkState d false None)
  = Throw (Error (type_error_message eng (NotAFunction "map"))).
Proof.
  intros Hparts Hstr Hws Hs.
  destruct (monitor_parts d si aentries strs Hparts Hstr) as (rows & _ & ->).
  unfold analysis_view. cbn [get_prop]. rewrite Hws.
  destruct (lookup "status" aentries) as [status|];
    cbn [obind get_prop String.eqb Ascii.eqb Bool.eqb];
    rewrite gt_zero_length;
    (destruct (String.length s) eqn:Hlen;
       [destruct (Hs (string_length_zero s Hlen)) | reflexivity]).
Qed.

(** X13. A status that is an object is not a valid React child: for a
    body whose rows are made and whose [warnings] are absent or an
    array, so that evaluating the JSX does not throw before React sees
    the children, [SystemMonitor] fails with React's invalid-child
    error. *)
Theorem X13_object_status_throws (d : value) (si aentries : list (string * value))
    (strs : list string) (o : list (string * value)) :
  body_parts d si aentries ->
  stringified eng si strs ->
  lookup "status" aentries = Some (VObj o) ->
  lookup "warnings" aentries = None \/
  (exists items, lookup "warnings" aentries = Some (VArr items)) ->
  SystemMonitor eng (mkState d false None)
  = Throw (Error (type_error_message eng InvalidChild)).
Proof.
  intros Hparts Hstr Hst Hws.
  destruct (monitor_parts d si aentries strs Hparts Hstr) as (rows & _ & ->).
  unfold analysis_view. cbn [get_prop]. rewrite Hst.
  destruct Hws as [Hws|[items Hws]]; rewrite Hws.
  - reflexivity.
  - cbn [obind get_prop String.eqb Ascii.eqb Bool.eqb]. rewrite gt_zero_length.
    destruct (List.length items); reflexivity.
Qed.

(** X14. A falsy body is itself the child of the card, as [data && ...]
    has it: nothing is shown under the title for [null], [false] and
    the empty string, and a number (zero) is shown as text. *)
Theorem X14_falsy_body (d : value) :
  truthy d = false ->
  exists tree,
    SystemMonitor eng (mkState d false None) = Normal tree /\
    visible_text tree =
      "System Diagnostics" :: match d with
                              | VNum q => [number_to_string eng q]
                              | _ => []
                              end.
Proof.
  intros Hd. unfold SystemMonitor, error_shown. cbn [loading error data].
  unfold diagnostics_card, and_then, obind. rewrite Hd.
  destruct d as [| |b|q|s|items|entries]; try discriminate Hd;
    cbn [render_child child_texts map];
    try (eexists; split; reflexivity).
  cbn [truthy] in Hd. apply negb_false_iff in Hd. rewrite Hd.
  eexists; split; reflexivity.
Qed.

End Shapes.

Lemma X9_missing_diagnostics_throws_witness :
  let net := constant_remote (Resolved (mkResponse true 200 (Parsed body_without_diagnostics))) in
  SystemMonitor sample_engine (st (snd (fetchData sample_engine net fresh_world)))
  = Throw (Error "Cannot read properties of null (reading 'system_info')") /\
  clickable sample_engine (st (snd (fetchData sample_engine net fresh_world))) = [].
Proof.
  exact (X9_missing_diagnostics_throws sample_engine
           (constant_remote (Resolved (mkResponse true 200 (Parsed body_without_diagnostics))))
           fresh_world (mkResponse true 200 (Parsed body_without_diagnostics))
           body_without_diagnostics VUndefined
           eq_refl eq_refl eq_refl eq_refl eq_refl (or_introl eq_refl)).
Defined.

Lemma X10_optional_parts_witness :
  exists tree,
    SystemMonitor sample_engine
      (mkState (VObj [("diagnostics", VObj [("metrics", VObj [])])]) false None)
    = Normal tree /\
    visible_text tree = ["System Diagnostics"; "System Info"].
Proof.
  exact (X10_optional_parts sample_engine
           [("diagnostics", VObj [("metrics", VObj [])])] [("metrics", VObj [])]
           eq_refl eq_refl eq_refl).
Defined.

Lemma X14_falsy_body_witness :
  exists tree,
    SystemMonitor sample_engine (mkState (VNum 0) false None) = Normal tree /\
    visible_text tree = ["System Diagnostics"; "0"].
Proof.
  exact (X14_falsy_body sample_engine (VNum 0) eq_refl).
Defined.

(** ** The substring test of the error view *)

Lemma prefix_append (a s : string) :
  prefix a s = true <-> exists post, s = (a ++ post)%string.
Proof.
  revert s. induction a as [|c a IH]; intros s.
  - split; [intros _; exists s; reflexivity|].
    intros _. destruct s; reflexivity.
  - destruct s as [|c' s]; cbn [prefix].
    + split; [discriminate | intros [post H]; discriminate H].
    + destruct (ascii_dec c c') as [<-|Hne].
      * rewrite IH. split; intros [post H]; exists post.
        -- cbn. rewrite H. reflexivity.
        -- cbn in H. injection H as H. exact H.
      * split; [discriminate|]. intros [post H]. cbn in H.
        injection H as Hc _. destruct Hne. symmetry. exact Hc.
Qed.

(** X15. The test that decides whether the retry button is shown,
    [error.includes(needle)], holds exactly when the error message is
    some text, then the needle, character for character, then some
    text. *)
Theorem X15_includes_is_substring (needle s : string) :
  includes needle s = true <->
  exists pre post, s = (pre ++ needle ++ post)%string.
Proof.
  induction s as [|c s IH]; cbn [includes].
  - rewrite orb_false_r, prefix_append. split.
    + intros [post H]. exists "", post. exact H.
    + intros (pre & post & H). destruct pre as [|c pre]; [|discriminate H].
      exists post. exact H.
  - rewrite orb_true_iff, prefix_append, IH. split.
    + intros [[post H]|(pre & post & H)].
      * exists "", post. exact H.
      * exists (String c pre), post. cbn. rewrite H. reflexivity.
    + intros (pre & post & H). destruct pre as [|c' pre].
      * left. exists post. exact H.
      * right. cbn in H. injection H as _ H. exists pre, post. exact H.
Qed.

(** ** The other static panels *)

Section MorePanels.

Variable eng : engine.

Lemma num_handlers (q : Q) : flat_map handlers_of (num eng q) = [].
Proof. apply text_handlers. Qed.

Lemma num_visible (q : Q) :
  flat_map visible_text (num eng q) = nonempty [number_to_string eng q].
Proof. apply text_visible. Qed.

Lemma alert_rows_visible (l : list alert_entry) :
  forall i,
    flat_map visible_text (alert_rows i l) =
    flat_map (fun a => nonempty [alert_message a; alert_timestamp a]) l.
Proof.
  induction l as [|a l IH]; intros i; [reflexivity|].
  cbn [alert_rows flat_map]. rewrite IH. f_equal.
  unfold alert_row. cbn [visible_text flat_map]. rewrite !text_visible.
  cbn [app]. rewrite !app_nil_r. unfold nonempty. cbn [filter].
  destruct (alert_message a =? "")%string, (alert_timestamp a =? "")%string; reflexivity.
Qed.

Lemma alert_rows_length (l : list alert_entry) :
  forall i, List.length (alert_rows i l) = List.length l.
Proof.
  induction l as [|a l IH]; intros i; [reflexivity|].
  cbn [alert_rows List.length]. rewrite IH. reflexivity.
Qed.

(** X16. The alerts panel lists the first three alerts at most, in
    order, with message and timestamp, while its badge counts all of
    them. *)
Theorem X16_alerts_panel (l : list alert_entry) :
  List.length (children_of (alerts_panel eng l)) = S (Nat.min 3 (List.length l)) /\
  visible_text (alerts_panel eng l) =
    ["Alerts"] ++
    nonempty [number_to_string eng (inject_Z (Z.of_nat (List.length l)))] ++
    flat_map (fun a => nonempty [alert_message a; alert_timestamp a]) (firstn 3 l).
Proof.
  unfold alerts_panel, panel, panel_header, panel_title. split.
  - cbn [children_of List.length]. rewrite alert_rows_length, length_firstn. reflexivity.
  - cbn [visible_text flat_map]. rewrite alert_rows_visible, num_visible.
    cbn [app]. rewrite !app_nil_r. reflexivity.
Qed.

(** X17. An alert row is red exactly when the type of the alert is
    'critical'; every other type, known or not, is drawn in yellow. *)
Theorem X17_alert_row_colour (i : nat) (a : alert_entry) :
  (highlighted (alert_row i a) = true <-> alert_type a = "critical") /\
  (alert_type a <> "critical" -> includes "yellow" (class_name (alert_row i a)) = true).
Proof.
  unfold highlighted, alert_row.
  cbn [class_name find fst snd String.eqb Ascii.eqb Bool.eqb].
  destruct (String.eqb_spec (alert_type a) "critical") as [E|E].
  - split; [split; [intros _; exact E | reflexivity] | contradiction].
  - split; [split; [discriminate | contradiction] | reflexivity].
Qed.

Lemma disk_rows_handlers (ds : list disk_data) :
  forall i, flat_map handlers_of (disk_rows eng i ds) = [].
Proof.
  induction ds as [|d ds IH]; intros i; [reflexivity|].
  cbn [disk_rows flat_map]. rewrite IH. unfold disk_row, disk_bar.
  cbn [handlers_of flat_map app]. rewrite flat_map_app, !text_handlers, num_handlers.
  reflexivity.
Qed.

Lemma alert_rows_handlers (l : list alert_entry) :
  forall i, flat_map handlers_of (alert_rows i l) = [].
Proof.
  induction l as [|a l IH]; intros i; [reflexivity|].
  cbn [alert_rows flat_map]. rewrite IH. unfold alert_row.
  cbn [handlers_of flat_map app]. rewrite !text_handlers. reflexivity.
Qed.

(** X18. The static panels offer nothing to click: the handlers of the
    dashboard are those of the nested [SystemMonitor] and no others. *)
Theorem X18_dashboard_is_static (sd : system_data) (l : list alert_entry) (monitor : vnode) :
  handlers_of (SystemMonitorDashboard eng sd l monitor) = handlers_of monitor.
Proof.
  unfold SystemMonitorDashboard, cpu_panel, memory_panel, alerts_panel, disk_panel,
    network_panel, speed, cpu_badge, memory_badge, cpu_chart, panel, panel_header,
    panel_title.
  cbn [handlers_of flat_map app].
  rewrite ?flat_map_app, ?num_handlers, ?disk_rows_handlers, ?alert_rows_handlers.
  cbn [handlers_of flat_map app]. rewrite ?app_nil_r. reflexivity.
Qed.

Lemma disk_rows_visible (ds : list disk_data) :
  forall i,
    flat_map visible_text (disk_rows eng i ds) =
    flat_map (fun d => nonempty [name d; number_to_string eng (disk_usage d)] ++ ["%"]) ds.
Proof.
  induction ds as [|d ds IH]; intros i; [reflexivity|].
  cbn [disk_rows flat_map]. rewrite IH. f_equal.
  unfold disk_row, disk_bar. cbn [visible_text flat_map].
  rewrite flat_map_app, text_visible, num_visible.
  cbn [flat_map visible_text app]. rewrite !app_nil_r.
  unfold nonempty. cbn [filter].
  destruct (name d =? "")%string, (number_to_string eng (disk_usage d) =? "")%string;
    reflexivity.
Qed.

(** X19. The disk panel has one row for every disk of [systemData], in
    order, showing its name and its usage followed by the percent
    sign. *)
Theorem X19_disk_panel (sd : system_data) :
  List.length (children_of (disk_panel eng sd)) = S (List.length (disk sd)) /\
  visible_text (disk_panel eng sd) =
    "Disk Usage" ::
    flat_map (fun d => nonempty [name d; number_to_string eng (disk_usage d)] ++ ["%"])
             (disk sd).
Proof.
  unfold disk_panel, panel, panel_header, panel_title. split.
  - cbn [children_of List.length]. f_equal.
    generalize 0%nat. induction (disk sd) as [|d ds IH]; intros i; [reflexivity|].
    cbn [disk_rows List.length]. rewrite IH. reflexivity.
  - cbn [visible_text flat_map]. rewrite disk_rows_visible. reflexivity.
Qed.

End MorePanels.

(** ** Failures of the network and clicks between polls *)

Section Failures.

Variable eng : engine.
Variable net : remote.

(** X20. When the request of a poll fails, the message of the failure
    becomes the error and the data is kept.  The view then shows that
    message, and after it the label of the retry button exactly when
    the message contains 'Administrative privileges'; except that an
    empty message is falsy for [if (error)], so that the view is the
    one of the same data with no error. *)
Theorem X20_network_failure (w : world) (msg : string) :
  net (List.length (requests w)) api_current = Rejected msg ->
  st (snd (fetchData eng net w)) = mkState (data (st w)) false (Some msg) /\
  (msg <> "" ->
   exists tree,
     SystemMonitor eng (st (snd (fetchData eng net w))) = Normal tree /\
     visible_text tree =
       msg :: (if includes "Administrative privileges" msg
               then ["Retry with Admin Privileges"] else [])) /\
  (msg = "" ->
   SystemMonitor eng (st (snd (fetchData eng net w))) =
   SystemMonitor eng (mkState (data (st w)) false None)).
Proof.
  intros Hnet. rewrite fetchData_runs, Hnet. cbn [snd st settled].
  split; [reflexivity|]. split.
  - intros Hmsg. unfold SystemMonitor, error_shown. cbn [loading error data].
    destruct (String.eqb_spec msg "") as [E|_]; [contradiction|].
    eexists. split; [reflexivity|].
    unfold error_alert. cbn [visible_text flat_map]. rewrite app_nil_r.
    rewrite flat_map_app, text_visible. unfold nonempty. cbn [filter].
    destruct (String.eqb_spec msg "") as [E|_]; [contradiction|]. cbn [negb app].
    destruct (includes "Administrative privileges" msg); reflexivity.
  - intros ->. reflexivity.
Qed.

(** X21. A click never moves the polls: whatever the handler of the
    retry button does, the clock and the timers of the page, with their
    due times, are as before. *)
Theorem X21_click_keeps_schedule (p : page) (h : handler) :
  timers (page_world (step eng net p (Click h))) = timers (page_world p) /\
  clock (page_world (step eng net p (Click h))) = clock (page_world p) /\
  mounted (step eng net p (Click h)) = mounted p.
Proof.
  cbn [step]. destruct (mounted p) as [id|] eqn:Hm; [|rewrite Hm; auto].
  destruct (existsb (handler_eqb h) (clickable eng (st (page_world p))));
    [|rewrite Hm; auto].
  cbn [page_world mounted]. destruct h. cbn [run_handler].
  destruct (handleRetryWithAdmin_world eng net (page_world p)) as (s' & new & -> & _).
  auto.
Qed.

End Failures.

Lemma X20_network_failure_witness :
  let net := constant_remote (Rejected "Failed to fetch") in
  st (snd (fetchData sample_engine net fresh_world))
  = mkState (data (st fresh_world)) false (Some "Failed to fetch") /\
  ("Failed to fetch" <> "" ->
   exists tree,
     SystemMonitor sample_engine (st (snd (fetchData sample_engine net fresh_world)))
     = Normal tree /\
     visible_text tree = ["Failed to fetch"]) /\
  ("Failed to fetch" = "" ->
   SystemMonitor sample_engine (st (snd (fetchData sample_engine net fresh_world))) =
   SystemMonitor sample_engine (mkState (data (st fresh_world)) false None)).
Proof.
  exact (X20_network_failure sample_engine (constant_remote (Rejected "Failed to fetch"))
           fresh_world "Failed to fetch" eq_refl).
Defined.

Lemma X11_warnings_optional_witness :
  exists tree,
    SystemMonitor sample_engine
      (mkState (VObj [("analysis", VObj [("status", VStr "ok")]);
                      ("diagnostics", VObj [("system_info", VObj [("os", VStr "Linux")])])])
               false None)
    = Normal tree /\
    visible_text tree =
      ["System Diagnostics"; "System Info"; "os"; ": "; "Linux";
       "Analysis"; "Status: "; "ok"].
Proof.
  apply (X11_warnings_optional sample_engine
           (VObj [("analysis", VObj [("status", VStr "ok")]);
                  ("diagnostics", VObj [("system_info", VObj [("os", VStr "Linux")])])])
           [("os", VStr "Linux")] [("status", VStr "ok")] ["Linux"] "ok").
  - eexists. eexists. split; [reflexivity|]. split; [reflexivity|]. split; reflexivity.
  - repeat constructor.
  - reflexivity.
  - reflexivity.
Defined.

Lemma X12_text_warnings_throw_witness :
  SystemMonitor sample_engine
    (mkState (VObj [("diagnostics", VObj [("system_info", VObj [("os", VStr "Linux")])]);
                    ("analysis", VObj [("status", VObj []);
                                       ("warnings", VStr "disk almost full")])])
             false None)
  = Throw (Error "map is not a function").
Proof.
  apply (X12_text_warnings_throw sample_engine
           (VObj [("diagnostics", VObj [("system_info", VObj [("os", VStr "Linux")])]);
                  ("analysis", VObj [("status", VObj []);
                                     ("warnings", VStr "disk almost full")])])
           [("os", VStr "Linux")]
           [("status", VObj []); ("warnings", VStr "disk almost full")]
           ["Linux"] "disk almost full").
  - eexists. eexists. split; [reflexivity|]. split; [reflexivity|]. split; reflexivity.
  - repeat constructor.
  - reflexivity.
  - discriminate.
Defined.

Lemma X13_object_status_throws_witness :
  SystemMonitor sample_engine
    (mkState (VObj [("diagnostics", VObj [("system_info", VObj [("os", VStr "Linux")])]);
                    ("analysis", VObj [("status", VObj [("level", VStr "ok")]);
                                       ("warnings", VArr [VStr "a"])])])
             false None)
  = Throw (Error "Objects are not valid as a React child").
Proof.
  apply (X13_object_status_throws sample_engine
           (VObj [("diagnostics", VObj [("system_info", VObj [("os", VStr "Linux")])]);
                  ("analysis", VObj [("status", VObj [("level", VStr "ok")]);
                                     ("warnings", VArr [VStr "a"])])])
           [("os", VStr "Linux")]
           [("status", VObj [("level", VStr "ok")]); ("warnings", VArr [VStr "a"])]
           ["Linux"] [("level", VStr "ok")]).
  - eexists. eexists. split; [reflexivity|]. split; [reflexivity|]. split; reflexivity.
  - repeat constructor.
  - reflexivity.
  - right. eexists. reflexivity.
Defined.
